(** * handlers: error pages, not-found pages and static files

    A shallow embedding of the Go package [handlers] (handlers.go) and of
    the properties its design document states about it.

    The package consists of three [http.Handler]s:
    - [ErrorHandler]    renders an error message into a template, status 500;
    - [NotFoundHandler] renders the request path into a template, status 404;
    - [FileHandler]     maps a request path to a file below a directory and
      either serves it, redirects to the path with a slash, or hands the
      request to a not-found handler.

    handlers.go is present in two revisions.  The later one renders into a
    [bytes.Buffer] before touching the [http.ResponseWriter]; it is the one
    embedded at top level.  The earlier one, which writes the status line
    first and renders straight into the response, is embedded in the module
    [Unbuffered] for comparison.

    Effects are modelled by a log: every handler returns the sequence of
    events it performs, in program order, together with its result (or the
    fact that it panicked).  *)

From Stdlib Require Import String Ascii List ZArith Lia Bool.
Import ListNotations.

Local Open Scope string_scope.
Local Open Scope list_scope.
Local Open Scope Z_scope.

(* ================================================================= *)
(** ** Go strings *)

(** A Go string is a sequence of bytes; [len] counts bytes. *)
Definition len (s : string) : Z := Z.of_nat (String.length s).

Fixpoint drop (n : nat) (s : string) : string :=
  match n, s with
  | O, _ => s
  | S n', String _ s' => drop n' s'
  | S _, EmptyString => EmptyString
  end.

(** The slice expression [s[i:]].  It panics at run time when [i] is
    negative or exceeds [len(s)]; [None] stands for the panic. *)
Definition slice_from (s : string) (i : Z) : option string :=
  if (i <? 0) || (len s <? i) then None
  else Some (drop (Z.to_nat i) s).

Module strings.

(** [strings.HasSuffix]:
    [len(s) >= len(suffix) && s[len(s)-len(suffix):] == suffix]. *)
Definition HasSuffix (s suffix : string) : bool :=
  (len suffix <=? len s) &&
  String.eqb (drop (String.length s - String.length suffix) s) suffix.

(** [strings.HasPrefix]. *)
Definition HasPrefix (s prefix : string) : bool := String.prefix prefix s.

(** [strings.ReplaceAll(s, old, new)] for a one-byte [old] and [new]. *)
Fixpoint ReplaceByte (s : string) (old new : ascii) : string :=
  match s with
  | EmptyString => EmptyString
  | String c s' =>
      String (if Ascii.eqb c old then new else c) (ReplaceByte s' old new)
  end.

(** [strings.FieldsFunc(s, f)]: the maximal runs of bytes of [s] on which
    [f] is false. *)
Fixpoint FieldsFunc_aux (f : ascii -> bool) (s : string) (cur : string)
  : list string :=
  match s with
  | EmptyString => if String.eqb cur "" then [] else [cur]
  | String c s' =>
      if f c
      then (if String.eqb cur "" then [] else [cur]) ++ FieldsFunc_aux f s' ""
      else FieldsFunc_aux f s' (cur ++ String c "")%string
  end.

Definition FieldsFunc (s : string) (f : ascii -> bool) : list string :=
  FieldsFunc_aux f s "".

End strings.

Module filepath.

(** [filepath.FromSlash]: on a platform whose separator is the slash the
    path is returned as it is; otherwise every slash is replaced. *)
Definition FromSlash (Separator : ascii) (path : string) : string :=
  if Ascii.eqb Separator "/"%char then path
  else strings.ReplaceByte path "/"%char Separator.

End filepath.

(* ================================================================= *)
(** ** The event log *)

(** What a handler can do with the [http.ResponseWriter] it is given: the
    two methods the package calls itself, and the three functions of
    [net/http] it passes the writer to. *)
Inductive Call : Type :=
| WriteHeader (code : Z)                 (* w.WriteHeader(code)            *)
| Write (bytes : string)                 (* w.Write(bytes)                 *)
| Error (error : string) (code : Z)      (* http.Error(w, error, code)     *)
| Redirect (url : string) (code : Z)     (* http.Redirect(w, r, url, code) *)
| ServeFile (name : string).             (* http.ServeFile(w, r, name)     *)

(** The events of one request, in program order. *)
Inductive Event : Type :=
| BufferWrite (bytes : string)           (* a Write on the local bytes.Buffer *)
| ExecuteReturn (err : option string)    (* template.Execute has returned     *)
| OsStat (name : string)                 (* os.Stat(name) was called          *)
| Transport (c : Call).                  (* a call on the ResponseWriter      *)

Definition Trace : Type := list Event.

(** The calls that reached the response writer. *)
Fixpoint transport (tr : Trace) : list Call :=
  match tr with
  | [] => []
  | Transport c :: tr' => c :: transport tr'
  | _ :: tr' => transport tr'
  end.

(** A computation logs events and then returns a value or panics. *)
Inductive Result (A : Type) : Type :=
| Returned (a : A)
| Panicked.
Arguments Returned {A} a.
Arguments Panicked {A}.

Definition Go (A : Type) : Type := (Trace * Result A)%type.

Definition ret {A} (a : A) : Go A := ([], Returned a).

Definition bind {A B} (m : Go A) (k : A -> Go B) : Go B :=
  match m with
  | (tr, Returned a) => let (tr', b) := k a in (tr ++ tr', b)
  | (tr, Panicked) => (tr, Panicked)
  end.

Definition emit (e : Event) : Go unit := ([e], Returned tt).

Definition panic {A} : Go A := ([], Panicked).

Definition trace {A} (m : Go A) : Trace := fst m.
Definition result {A} (m : Go A) : Result A := snd m.

Declare Scope go_scope.
Delimit Scope go_scope with go.
Notation "x <- m ;; k" := (bind m (fun x => k))
  (at level 100, m at next level, right associativity) : go_scope.
Notation "' p <- m ;; k" := (bind m (fun p => k))
  (at level 100, p pattern, m at next level, right associativity) : go_scope.
Notation "m ;;; k" := (bind m (fun _ => k))
  (at level 100, right associativity) : go_scope.
Local Open Scope go_scope.

(* ================================================================= *)
(** ** Writers, buffers and templates *)

(** The response writer is a handle; what is done through it is in the log. *)
Inductive ResponseWriter : Type := responseWriter.

(** [bytes.Buffer]: the bytes written so far. *)
Definition Buffer : Type := string.

(** [io.Writer]. *)
Class Writer (W : Type) : Type :=
  write : W -> string -> Go W.

#[global] Instance Buffer_Writer : Writer Buffer :=
  fun b p => emit (BufferWrite p) ;;; ret (b ++ p)%string.

#[global] Instance ResponseWriter_Writer : Writer ResponseWriter :=
  fun w p => emit (Transport (Write p)) ;;; ret w.

Fixpoint write_all {W} `{Writer W} (wr : W) (chunks : list string) : Go W :=
  match chunks with
  | [] => ret wr
  | p :: chunks' => wr' <- write wr p ;; write_all wr' chunks'
  end.

(** [buffer.WriteTo(w)]: one [Write] of the whole content, and no call at
    all when the buffer is empty. *)
Definition WriteTo (buffer : Buffer) (w : ResponseWriter) : Go unit :=
  if String.eqb buffer "" then ret tt
  else emit (Transport (Write buffer)).

(** The values the package passes to a template. *)
Record ErrorMessage : Type := mkErrorMessage { ErrorMessage_ : string }.
Record NotFoundData : Type := mkNotFoundData { Path_ : string }.

Inductive TemplateData : Type :=
| ErrorMessageData (d : ErrorMessage)
| NotFoundDataData (d : NotFoundData).

(** A parsed [*template.Template].  Executing it on a value writes pieces
    of output to the writer, in order, and ends with or without an error;
    when it ends with an error the pieces before it have been written. *)
Record Template : Type := mkTemplate {
  run : TemplateData -> list string * option string
}.

(** [t.Execute(wr, data)]. *)
Definition Execute {W} `{Writer W} (t : Template) (wr : W) (data : TemplateData)
  : Go (W * option string) :=
  let (chunks, err) := run t data in
  wr' <- write_all wr chunks ;;
  emit (ExecuteReturn err) ;;;
  ret (wr', err).

(** The whole output of a template on a value. *)
Definition rendered (t : Template) (data : TemplateData) : string :=
  String.concat "" (fst (run t data)).

Definition render_error (t : Template) (data : TemplateData) : option string :=
  snd (run t data).

(* ================================================================= *)
(** ** net/http constants and requests *)

Definition StatusOK : Z := 200.
Definition StatusMovedPermanently : Z := 301.
Definition StatusFound : Z := 302.
Definition StatusBadRequest : Z := 400.
Definition StatusNotFound : Z := 404.
Definition StatusInternalServerError : Z := 500.

(** The fields of [*http.Request] that are read: [r.Method], [r.URL.Path]
    and [r.URL.RawQuery]. *)
Record Request : Type := mkRequest {
  Method : string;
  URL_Path : string;
  URL_RawQuery : string
}.

(** [http.Handler]. *)
Record Handler : Type := mkHandler {
  Handler_ServeHTTP : ResponseWriter -> Request -> Go unit
}.

Definition http_Error (w : ResponseWriter) (error : string) (code : Z) : Go unit :=
  emit (Transport (Error error code)).

Definition http_Redirect (w : ResponseWriter) (r : Request) (url : string)
  (code : Z) : Go unit :=
  emit (Transport (Redirect url code)).

Definition http_ServeFile (w : ResponseWriter) (r : Request) (name : string)
  : Go unit :=
  emit (Transport (ServeFile name)).

Definition w_WriteHeader (w : ResponseWriter) (code : Z) : Go unit :=
  emit (Transport (WriteHeader code)).

(* ================================================================= *)
(** ** ErrorHandler *)

Record ErrorHandler : Type := mkErrorHandler {
  template : Template;
  defaultMessage : string;
  displayErrors : bool
}.

Definition NewErrorHandler (template : Template) (defaultMessage : string)
  (displayErrors : bool) : ErrorHandler :=
  {| template := template;
     defaultMessage := defaultMessage;
     displayErrors := displayErrors |}.

Module ErrorHandler_.

Definition ServeError (h : ErrorHandler) (w : ResponseWriter)
  (message : string) : Go unit :=
  let templateData :=
    if displayErrors h then mkErrorMessage message
    else mkErrorMessage (defaultMessage h) in
  '(buffer, err) <-
     Execute (template h) ("" : Buffer) (ErrorMessageData templateData) ;;
  match err with
  | Some e => http_Error w e StatusInternalServerError
  | None =>
      w_WriteHeader w StatusInternalServerError ;;;
      WriteTo buffer w
  end.

Definition AlwaysServeError (h : ErrorHandler) (w : ResponseWriter)
  (message : string) : Go unit :=
  let templateData := mkErrorMessage message in
  '(buffer, err) <-
     Execute (template h) ("" : Buffer) (ErrorMessageData templateData) ;;
  match err with
  | Some e => http_Error w e StatusInternalServerError
  | None =>
      w_WriteHeader w StatusInternalServerError ;;;
      WriteTo buffer w
  end.

Definition ServeHTTP (h : ErrorHandler) (w : ResponseWriter) (r : Request)
  : Go unit :=
  let templateData := mkErrorMessage (defaultMessage h) in
  '(buffer, err) <-
     Execute (template h) ("" : Buffer) (ErrorMessageData templateData) ;;
  match err with
  | Some e => http_Error w e StatusInternalServerError
  | None =>
      w_WriteHeader w StatusInternalServerError ;;;
      WriteTo buffer w
  end.

End ErrorHandler_.

(* ================================================================= *)
(** ** NotFoundHandler *)

Record NotFoundHandler : Type := mkNotFoundHandler {
  nf_template : Template
}.

Definition NewNotFoundHandler (template : Template) : NotFoundHandler :=
  {| nf_template := template |}.

Module NotFoundHandler_.

Definition ServeHTTP (h : NotFoundHandler) (w : ResponseWriter) (r : Request)
  : Go unit :=
  let templateData := mkNotFoundData (URL_Path r) in
  '(buffer, err) <-
     Execute (nf_template h) ("" : Buffer) (NotFoundDataData templateData) ;;
  match err with
  | Some e => http_Error w e StatusInternalServerError
  | None =>
      w_WriteHeader w StatusNotFound ;;;
      WriteTo buffer w
  end.

Definition as_Handler (h : NotFoundHandler) : Handler :=
  {| Handler_ServeHTTP := ServeHTTP h |}.

End NotFoundHandler_.

(* ================================================================= *)
(** ** The file system *)

Module os.

(** [os.FileMode] is a 32-bit word; these are its type bits. *)
Definition FileMode : Type := Z.

Definition ModeDir : FileMode := Z.shiftl 1 31.
Definition ModeSymlink : FileMode := Z.shiftl 1 27.
Definition ModeDevice : FileMode := Z.shiftl 1 26.
Definition ModeNamedPipe : FileMode := Z.shiftl 1 25.
Definition ModeSocket : FileMode := Z.shiftl 1 24.
Definition ModeCharDevice : FileMode := Z.shiftl 1 21.
Definition ModeIrregular : FileMode := Z.shiftl 1 19.

Definition ModeType : FileMode :=
  Z.lor ModeDir
    (Z.lor ModeSymlink
       (Z.lor ModeNamedPipe
          (Z.lor ModeSocket
             (Z.lor ModeDevice (Z.lor ModeCharDevice ModeIrregular))))).

(** [m.IsDir()]: [m&ModeDir != 0]. *)
Definition IsDir (m : FileMode) : bool := negb (Z.land m ModeDir =? 0).

(** [m.IsRegular()]: [m&ModeType == 0]. *)
Definition IsRegular (m : FileMode) : bool := Z.land m ModeType =? 0.

Record FileInfo : Type := mkFileInfo { Mode : FileMode }.

(** Why [os.Stat] can fail. *)
Inductive PathError : Type :=
| ErrNotExist
| ErrPermission
| ErrInvalid
| ErrOther (msg : string).

End os.

(** The platform a handler runs on: the path separator, what [os.Stat]
    answers (it follows symbolic links) and what the regular files hold. *)
Record Platform : Type := mkPlatform {
  Separator : ascii;
  Stat : string -> os.FileInfo + os.PathError;
  Content : string -> string
}.

(* ================================================================= *)
(** ** FileHandler *)

Record FileHandler : Type := mkFileHandler {
  urlPath : string;
  directory : string;
  notFoundHandler : Handler
}.

Definition NewFileHandler (urlPath directory : string) (notFoundHandler : Handler)
  : FileHandler :=
  {| urlPath := urlPath;
     directory := directory;
     notFoundHandler := notFoundHandler |}.

Module FileHandler_.

Definition indexPage : string := "index.html".

Definition ServeHTTP (sys : Platform) (h : FileHandler) (w : ResponseWriter)
  (r : Request) : Go unit :=
  match slice_from (URL_Path r) (len (urlPath h) - 1) with
  | None => panic
  | Some requestPath =>
      let filePath :=
        if strings.HasSuffix (URL_Path r) "/"
        then (directory h ++
              filepath.FromSlash (Separator sys) (requestPath ++ indexPage))%string
        else (directory h ++
              filepath.FromSlash (Separator sys) requestPath)%string in
      emit (OsStat filePath) ;;;
      match Stat sys filePath with
      | inr err => Handler_ServeHTTP (notFoundHandler h) w r
      | inl finfo =>
          let mode := os.Mode finfo in
          if os.IsDir mode
          then http_Redirect w r (URL_Path r ++ "/")%string StatusFound
          else if os.IsRegular mode
          then http_ServeFile w r filePath
          else ret tt
      end
  end.

Definition as_Handler (sys : Platform) (h : FileHandler) : Handler :=
  {| Handler_ServeHTTP := ServeHTTP sys h |}.

End FileHandler_.

(* ================================================================= *)
(** ** The earlier revision: rendering straight into the response *)

Module Unbuffered.

Definition ServeError (h : ErrorHandler) (w : ResponseWriter)
  (message : string) : Go unit :=
  let templateData :=
    if displayErrors h then mkErrorMessage message
    else mkErrorMessage (defaultMessage h) in
  w_WriteHeader w StatusInternalServerError ;;;
  _ <- Execute (template h) w (ErrorMessageData templateData) ;;
  ret tt.

Definition AlwaysServeError (h : ErrorHandler) (w : ResponseWriter)
  (message : string) : Go unit :=
  let templateData := mkErrorMessage message in
  w_WriteHeader w StatusInternalServerError ;;;
  _ <- Execute (template h) w (ErrorMessageData templateData) ;;
  ret tt.

Definition ErrorHandler_ServeHTTP (h : ErrorHandler) (w : ResponseWriter)
  (r : Request) : Go unit :=
  let templateData := mkErrorMessage (defaultMessage h) in
  w_WriteHeader w StatusInternalServerError ;;;
  _ <- Execute (template h) w (ErrorMessageData templateData) ;;
  ret tt.

Definition NotFoundHandler_ServeHTTP (h : NotFoundHandler) (w : ResponseWriter)
  (r : Request) : Go unit :=
  let templateData := mkNotFoundData (URL_Path r) in
  w_WriteHeader w StatusNotFound ;;;
  _ <- Execute (nf_template h) w (NotFoundDataData templateData) ;;
  ret tt.

End Unbuffered.

(* ================================================================= *)
(** ** What net/http makes of the calls *)

(** The response a client of the package observes, as
    [httptest.ResponseRecorder] records it: the status code, the
    [Location] header and the body.  Only documented behaviour of
    [net/http] is modelled, for requests without conditional or range
    headers; where the library's answer is not modelled the recorder
    answers [None].  [http.Redirect] is modelled where it is the first
    call on the writer and the url it is given is a rooted path that
    [url.Parse] takes as a path without more ado: it starts with one
    slash and holds no control byte and none of [#], [?] and [%]. *)
Module nethttp.

Record Response : Type := mkResponse {
  wroteHeader : bool;
  Code : Z;
  Location : option string;
  Body : string
}.

(** [httptest.NewRecorder()]. *)
Definition NewRecorder : Response :=
  {| wroteHeader := false; Code := StatusOK; Location := None; Body := "" |}.

(** [rw.WriteHeader(code)]: only the first call counts. *)
Definition rec_WriteHeader (rw : Response) (code : Z) : Response :=
  if wroteHeader rw then rw
  else {| wroteHeader := true; Code := code;
          Location := Location rw; Body := Body rw |}.

(** [rw.Write(bytes)]: writes the header with status 200 if none was
    written, then appends to the body. *)
Definition rec_Write (rw : Response) (bytes : string) : Response :=
  let rw' := rec_WriteHeader rw StatusOK in
  {| wroteHeader := wroteHeader rw'; Code := Code rw';
     Location := Location rw'; Body := (Body rw' ++ bytes)%string |}.

Definition rec_SetLocation (rw : Response) (url : string) : Response :=
  {| wroteHeader := wroteHeader rw; Code := Code rw;
     Location := Some url; Body := Body rw |}.

Definition newline : string := String (ascii_of_nat 10) "".

(** [http.Error]: the status code, then the error text and a newline as
    a plain-text body. *)
Definition rec_Error (rw : Response) (error : string) (code : Z) : Response :=
  rec_Write (rec_WriteHeader rw code) (error ++ newline)%string.

Definition isSlashRune (c : ascii) : bool :=
  Ascii.eqb c "/"%char || Ascii.eqb c "\"%char.

(** [containsDotDot]: some slash-separated element of the path is [..]. *)
Definition containsDotDot (v : string) : bool :=
  existsb (fun ent => String.eqb ent "..") (strings.FieldsFunc v isSlashRune).

(** [localRedirect]: status 301 to [newPath], with the query kept. *)
Definition rec_localRedirect (rw : Response) (r : Request) (newPath : string)
  : Response :=
  let newPath :=
    if String.eqb (URL_RawQuery r) "" then newPath
    else (newPath ++ "?" ++ URL_RawQuery r)%string in
  rec_WriteHeader (rec_SetLocation rw newPath) StatusMovedPermanently.

(** [http.ServeFile(w, r, name)].  A request path with a [..] element is
    refused; "as a special case, ServeFile redirects any request where
    r.URL.Path ends in /index.html to the same path, without the final
    index.html"; a regular file is sent with status 200, without a body
    for HEAD.  Directories and files that cannot be opened are not
    modelled. *)
Definition rec_ServeFile (sys : Platform) (rw : Response) (r : Request)
  (name : string) : option Response :=
  if containsDotDot (URL_Path r)
  then Some (rec_Error rw "invalid URL path" StatusBadRequest)
  else if strings.HasSuffix (URL_Path r) "/index.html"
  then Some (rec_localRedirect rw r "./")
  else match Stat sys name with
       | inl finfo =>
           if os.IsRegular (os.Mode finfo)
           then let rw' := rec_WriteHeader rw StatusOK in
                Some (if String.eqb (Method r) "HEAD" then rw'
                      else rec_Write rw' (Content sys name))
           else None
       | inr _ => None
       end.

(** The urls [url.Parse] accepts as a path, with neither scheme nor host:
    one leading slash, no control byte, no [#], [?] or [%]. *)
Definition plain_byte (c : ascii) : bool :=
  (32 <=? nat_of_ascii c)%nat
  && negb (nat_of_ascii c =? 127)%nat
  && negb (Ascii.eqb c "#")
  && negb (Ascii.eqb c "?")
  && negb (Ascii.eqb c "%").

Fixpoint all_bytes (f : ascii -> bool) (s : string) : bool :=
  match s with
  | EmptyString => true
  | String c s' => f c && all_bytes f s'
  end.

Definition plain_rooted (url : string) : bool :=
  strings.HasPrefix url "/"
  && negb (strings.HasPrefix url "//")
  && all_bytes plain_byte url.

(** [path.Clean] on a rooted path: empty and [.] elements go, a [..]
    element takes the element before it with it (and goes alone at the
    root); what is left is joined by single slashes after the root. *)
Fixpoint clean_elements (elements stack : list string) : list string :=
  match elements with
  | [] => rev stack
  | e :: elements' =>
      if String.eqb e "." then clean_elements elements' stack
      else if String.eqb e ".." then clean_elements elements' (tl stack)
      else clean_elements elements' (e :: stack)
  end.

Definition path_Clean (p : string) : string :=
  ("/" ++ String.concat "/"
            (clean_elements
               (strings.FieldsFunc p (fun c => Ascii.eqb c "/")) []))%string.

(** The url [http.Redirect] sends a rooted path to: the cleaned path,
    with the final slash put back. *)
Definition redirect_target (url : string) : string :=
  if strings.HasSuffix url "/" && negb (strings.HasSuffix (path_Clean url) "/")
  then (path_Clean url ++ "/")%string
  else path_Clean url.

Definition hex_digit (n : nat) : ascii :=
  match String.get n "0123456789abcdef" with
  | Some c => c
  | None => "0"%char
  end.

(** [hexEscapeNonASCII]: every byte from 0x80 on becomes [%] and its two
    hexadecimal digits. *)
Fixpoint hexEscapeNonASCII (s : string) : string :=
  match s with
  | EmptyString => EmptyString
  | String c s' =>
      if (128 <=? nat_of_ascii c)%nat
      then String "%"
             (String (hex_digit (nat_of_ascii c / 16))
                (String (hex_digit (nat_of_ascii c mod 16))
                   (hexEscapeNonASCII s')))
      else String c (hexEscapeNonASCII s')
  end.

Definition dquote : ascii := ascii_of_nat 34.

(** [htmlEscape]: the five characters the library replaces. *)
Fixpoint htmlEscape (s : string) : string :=
  match s with
  | EmptyString => EmptyString
  | String c s' =>
      ((if Ascii.eqb c "&" then "&amp;"
        else if Ascii.eqb c "<" then "&lt;"
        else if Ascii.eqb c ">" then "&gt;"
        else if Ascii.eqb c dquote then "&#34;"
        else if Ascii.eqb c "'" then "&#39;"
        else String c "") ++ htmlEscape s')%string
  end.

(** [http.StatusText] for the redirection codes. *)
Definition StatusText (code : Z) : option string :=
  if code =? 300 then Some "Multiple Choices"
  else if code =? 301 then Some "Moved Permanently"
  else if code =? 302 then Some "Found"
  else if code =? 303 then Some "See Other"
  else if code =? 304 then Some "Not Modified"
  else if code =? 305 then Some "Use Proxy"
  else if code =? 307 then Some "Temporary Redirect"
  else if code =? 308 then Some "Permanent Redirect"
  else None.

(** [http.Redirect(w, r, url, code)] as the first call on the writer, for
    a url in [plain_rooted]: the [Location] header is the cleaned url with
    its bytes from 0x80 on escaped, then the status code, then for GET a
    short HTML body with a link to the cleaned url. *)
Definition rec_Redirect (rw : Response) (r : Request) (url : string) (code : Z)
  : option Response :=
  if wroteHeader rw then None
  else if negb (plain_rooted url) then None
  else match StatusText code with
       | None => None
       | Some text =>
           let rw' :=
             rec_WriteHeader
               (rec_SetLocation rw (hexEscapeNonASCII (redirect_target url)))
               code in
           Some (if String.eqb (Method r) "GET"
                 then rec_Write rw'
                        ("<a href=" ++ String dquote ""
                         ++ htmlEscape (redirect_target url)
                         ++ String dquote "" ++ ">" ++ text ++ "</a>."
                         ++ newline ++ newline)%string
                 else rw')
       end.

Definition rec_call (sys : Platform) (r : Request) (rw : Response) (c : Call)
  : option Response :=
  match c with
  | WriteHeader code => Some (rec_WriteHeader rw code)
  | Write bytes => Some (rec_Write rw bytes)
  | Error error code => Some (rec_Error rw error code)
  | ServeFile name => rec_ServeFile sys rw r name
  | Redirect url code => rec_Redirect rw r url code
  end.

Fixpoint rec_calls (sys : Platform) (r : Request) (rw : Response)
  (cs : list Call) : option Response :=
  match cs with
  | [] => Some rw
  | c :: cs' =>
      match rec_call sys r rw c with
      | Some rw' => rec_calls sys r rw' cs'
      | None => None
      end
  end.

(** The response recorded for the handling of request [r]. *)
Definition recorded (sys : Platform) (r : Request) (m : Go unit)
  : option Response :=
  rec_calls sys r NewRecorder (transport (trace m)).

End nethttp.

(* ================================================================= *)
(** ** The package's test fixture *)

(** The directory [./test] of TestFileHandler, the two templates of the
    tests, and a few more files and templates used as concrete inputs. *)
Module Fixture.

Definition dir : os.FileInfo := os.mkFileInfo os.ModeDir.
Definition file : os.FileInfo := os.mkFileInfo 420.   (* 0644 *)
Definition pipe : os.FileInfo := os.mkFileInfo (Z.lor os.ModeNamedPipe 420).

Definition files : list (string * (os.FileInfo * string)) :=
  [ ("./test", (dir, ""));
    ("./test/index.html", (file, "Test"));
    ("./test/sub1", (dir, ""));
    ("./test/sub1/index.html", (file, "Sub1"));
    ("./test/sub2", (dir, ""));
    ("./test/sub2/not-index.html", (file, "Sub2"));
    ("./test/fifo", (pipe, "")) ].

Fixpoint lookup (name : string) (l : list (string * (os.FileInfo * string)))
  : option (os.FileInfo * string) :=
  match l with
  | [] => None
  | (n, x) :: l' => if String.eqb n name then Some x else lookup name l'
  end.

Definition unix : Platform :=
  {| Separator := "/"%char;
     Stat := fun name =>
       match lookup name files with
       | Some (fi, _) => inl fi
       | None => inr os.ErrNotExist
       end;
     Content := fun name =>
       match lookup name files with
       | Some (_, c) => c
       | None => ""
       end |}.

(** templates/notfound.html: [Not Found: {{.Path}}]. *)
Definition notfound_html : Template :=
  {| run := fun data =>
       match data with
       | NotFoundDataData d => (["Not Found: "; Path_ d], None)
       | ErrorMessageData _ =>
           (["Not Found: "], Some "can't evaluate field Path")
       end |}.

(** templates/error.html: [Error: {{.ErrorMessage}}]. *)
Definition error_html : Template :=
  {| run := fun data =>
       match data with
       | ErrorMessageData d => (["Error: "; ErrorMessage_ d], None)
       | NotFoundDataData _ =>
           (["Error: "], Some "can't evaluate field ErrorMessage")
       end |}.

(** A template that writes some output and then fails on every value. *)
Definition broken_html : Template :=
  {| run := fun _ => (["<h1>"], Some "can't evaluate field Missing") |}.

Definition nfh : NotFoundHandler := NewNotFoundHandler notfound_html.

Definition fh : FileHandler :=
  NewFileHandler "/test/" "./test" (NotFoundHandler_.as_Handler nfh).

Definition GET (path : string) : Request :=
  {| Method := "GET"; URL_Path := path; URL_RawQuery := "" |}.

Definition w : ResponseWriter := responseWriter.

End Fixture.

(* ================================================================= *)
(** ** The vocabulary of the properties *)

(** Render [data] into a fresh buffer; on an error call [http.Error] with
    it, otherwise write [code] and then the buffer. *)
Definition render_then_commit (t : Template) (data : TemplateData) (code : Z)
  (w : ResponseWriter) : Go unit :=
  '(buffer, err) <- Execute t ("" : Buffer) data ;;
  match err with
  | Some e => http_Error w e StatusInternalServerError
  | None => w_WriteHeader w code ;;; WriteTo buffer w
  end.

(** The calls of [w.WriteHeader(code)] followed by [buffer.WriteTo(w)]. *)
Definition commit_calls (code : Z) (body : string) : list Call :=
  WriteHeader code :: (if String.eqb body "" then [] else [Write body]).

(** Nothing has reached the response writer at the moment
    [template.Execute] returns. *)
Definition silent_until_rendered (tr : Trace) : Prop :=
  forall pre err post, tr = pre ++ ExecuteReturn err :: post -> transport pre = [].

(** A handling [m] of request [r] that rendered [data] with success and
    then committed: its log is the writes into the buffer, the return of
    [Execute] without an error, and then the status line and the whole
    buffer on the response writer; it returns normally; nothing reached the
    writer before [Execute] returned; the recorded response has the status
    [code] and the rendering as its body. *)
Definition committed (sys : Platform) (r : Request) (m : Go unit)
  (t : Template) (data : TemplateData) (code : Z) : Prop :=
  trace m =
    map BufferWrite (fst (run t data))
      ++ ExecuteReturn None
      :: map Transport (commit_calls code (rendered t data))
  /\ result m = Returned tt
  /\ silent_until_rendered (trace m)
  /\ nethttp.recorded sys r m =
     Some (nethttp.mkResponse true code None (rendered t data)).

(** A handling [m] of request [r] whose rendering of [data] failed with
    [e]: whatever went into the buffer stays there, the only call on the
    response writer is [http.Error(w, e, 500)], made after [Execute]
    returned, and the handler returns normally. *)
Definition fell_back (sys : Platform) (r : Request) (m : Go unit)
  (t : Template) (data : TemplateData) (e : string) : Prop :=
  trace m =
    map BufferWrite (fst (run t data))
      ++ [ExecuteReturn (Some e); Transport (Error e StatusInternalServerError)]
  /\ result m = Returned tt
  /\ transport (trace m) = [Error e StatusInternalServerError]
  /\ silent_until_rendered (trace m)
  /\ nethttp.recorded sys r m =
     Some (nethttp.mkResponse true StatusInternalServerError None
             (e ++ nethttp.newline)%string).

(** A template that writes the message it is given and nothing else. *)
Definition echo : Template :=
  {| run := fun data =>
       match data with
       | ErrorMessageData d => ([ErrorMessage_ d], None)
       | NotFoundDataData d => ([Path_ d], None)
       end |}.

(** The path [FileHandler.ServeHTTP] calls [os.Stat] on: the resolved
    target of the request, read off the log of the handler. *)
Definition resolved (sys : Platform) (h : FileHandler) (r : Request)
  : option string :=
  match trace (FileHandler_.ServeHTTP sys h responseWriter r) with
  | OsStat name :: _ => Some name
  | _ => None
  end.

(** What the handler does once [os.Stat] has answered. *)
Definition after_stat (sys : Platform) (h : FileHandler) (w : ResponseWriter)
  (r : Request) (filePath : string) : Go unit :=
  match Stat sys filePath with
  | inr err => Handler_ServeHTTP (notFoundHandler h) w r
  | inl finfo =>
      if os.IsDir (os.Mode finfo)
      then http_Redirect w r (URL_Path r ++ "/")%string StatusFound
      else if os.IsRegular (os.Mode finfo)
      then http_ServeFile w r filePath
      else ret tt
  end.

(* ================================================================= *)
(** ** Loading the handlers from template files *)

(** [template.ParseFiles(path)]: the parsed template, or an error. *)
Definition Parser : Type := string -> Template + string.

(** How a [Load...] function ends: it returns the handler, or it stops the
    program in [log.Fatal] with the error of the parser. *)
Inductive Startup (A : Type) : Type :=
| Loaded (a : A)
| Fatal (err : string).
Arguments Loaded {A} a.
Arguments Fatal {A} err.

Definition LoadErrorHandler (ParseFiles : Parser)
  (templatePath defaultMessage : string) (displayErrors : bool)
  : Startup ErrorHandler :=
  match ParseFiles templatePath with
  | inr err => Fatal err
  | inl template =>
      Loaded (NewErrorHandler template defaultMessage displayErrors)
  end.


(* ================================================================= *)
(** ** More vocabulary and inputs *)

(** What the four template methods of the earlier revision repeat: write
    the status line, then execute the template on the response writer and
    drop what [Execute] returns. *)
Definition status_then_render (t : Template) (data : TemplateData) (code : Z)
  (w : ResponseWriter) : Go unit :=
  w_WriteHeader w code ;;;
  _ <- Execute t w data ;;
  ret tt.

(** A handling [m] that streamed the template into the response: the
    status line first, then one [Write] for each piece of output, and a
    normal return; the recorded response has the status [code] and, as its
    body, what the template wrote until it ended. *)
Definition streamed (sys : Platform) (r : Request) (m : Go unit)
  (t : Template) (data : TemplateData) (code : Z) : Prop :=
  transport (trace m) = WriteHeader code :: map Write (fst (run t data))
  /\ result m = Returned tt
  /\ nethttp.recorded sys r m =
     Some (nethttp.mkResponse true code None (rendered t data)).

(** No call of [http.ServeFile] among the calls. *)
Definition serves_no_file (cs : list Call) : Prop :=
  forall name, ~ In (ServeFile name) cs.

(** [strings.Contains(s, substr)]. *)
Fixpoint Contains (s substr : string) : bool :=
  String.prefix substr s
  || match s with
     | EmptyString => false
     | String _ s' => Contains s' substr
     end.

(** The number of slashes a string starts with. *)
Fixpoint leading_slashes (s : string) : nat :=
  match s with
  | String c s' => if Ascii.eqb c "/" then S (leading_slashes s') else O
  | EmptyString => O
  end.

Module Inputs.

(** A parser that knows the two template files of the tests. *)
Definition parser : Parser :=
  fun path =>
    if String.eqb path "templates/notfound.html" then inl Fixture.notfound_html
    else if String.eqb path "templates/error.html" then inl Fixture.error_html
    else inr "open: no such file or directory".

(** The file handler of the tests, with the final slash of its url path
    left out. *)
Definition fh_without_slash : FileHandler :=
  NewFileHandler "/test" "./test" (NotFoundHandler_.as_Handler Fixture.nfh).


End Inputs.

(* ================================================================= *)
(** * Properties *)

(** ** Strings and logs *)

Lemma append_nil_r (s : string) : (s ++ "")%string = s.
Proof. induction s as [|c s IH]; simpl; [reflexivity | now rewrite IH]. Qed.

Lemma append_assoc (a b c : string) :
  ((a ++ b) ++ c)%string = (a ++ (b ++ c))%string.
Proof. induction a as [|x a IH]; simpl; [reflexivity | now rewrite IH]. Qed.

Lemma concat_cons (p : string) (chunks : list string) :
  String.concat "" (p :: chunks) = (p ++ String.concat "" chunks)%string.
Proof.
  destruct chunks as [|q chunks]; simpl; [now rewrite append_nil_r | reflexivity].
Qed.

Lemma transport_app (a b : Trace) :
  transport (a ++ b) = transport a ++ transport b.
Proof.
  induction a as [|e a IH]; simpl; [reflexivity |].
  destruct e; simpl; now rewrite IH.
Qed.

Lemma transport_buffer_writes (chunks : list string) :
  transport (map BufferWrite chunks) = [].
Proof. induction chunks; simpl; auto. Qed.

Lemma transport_calls (cs : list Call) : transport (map Transport cs) = cs.
Proof. induction cs as [|c cs IH]; simpl; [reflexivity | now rewrite IH]. Qed.

(** ** Rendering into a buffer and into the response *)

Lemma write_buffer (b : Buffer) (p : string) :
  write b p = ([BufferWrite p], Returned (b ++ p)%string).
Proof. reflexivity. Qed.

Lemma write_response (w : ResponseWriter) (p : string) :
  write w p = ([Transport (Write p)], Returned w).
Proof. reflexivity. Qed.

Lemma write_all_buffer (chunks : list string) (b : Buffer) :
  write_all b chunks =
  (map BufferWrite chunks, Returned (b ++ String.concat "" chunks)%string).
Proof.
  revert b; induction chunks as [|p chunks IH]; intro b.
  - simpl. unfold ret. now rewrite append_nil_r.
  - rewrite concat_cons. cbn [write_all]. rewrite write_buffer.
    cbn [bind]. rewrite IH. cbn. now rewrite append_assoc.
Qed.

Lemma write_all_response (chunks : list string) (w : ResponseWriter) :
  write_all w chunks =
  (map (fun p => Transport (Write p)) chunks, Returned w).
Proof.
  induction chunks as [|p chunks IH]; [reflexivity |].
  cbn [write_all]. rewrite write_response.
  cbn [bind]. rewrite IH. reflexivity.
Qed.

Lemma Execute_buffer (t : Template) (data : TemplateData) :
  Execute t ("" : Buffer) data =
  (map BufferWrite (fst (run t data)) ++ [ExecuteReturn (render_error t data)],
   Returned (rendered t data, render_error t data)).
Proof.
  unfold Execute, rendered, render_error.
  destruct (run t data) as [chunks err]. cbn [fst snd].
  rewrite write_all_buffer. cbn. reflexivity.
Qed.

Lemma Execute_response (t : Template) (w : ResponseWriter) (data : TemplateData) :
  Execute t w data =
  (map (fun p => Transport (Write p)) (fst (run t data))
     ++ [ExecuteReturn (render_error t data)],
   Returned (w, render_error t data)).
Proof.
  unfold Execute, render_error.
  destruct (run t data) as [chunks err]. cbn [fst snd].
  rewrite write_all_response. cbn. reflexivity.
Qed.

(** ** The protocol the four template handlers repeat *)

Lemma ServeError_protocol h w message :
  ErrorHandler_.ServeError h w message =
  render_then_commit (template h)
    (ErrorMessageData
       (mkErrorMessage (if displayErrors h then message else defaultMessage h)))
    StatusInternalServerError w.
Proof. unfold ErrorHandler_.ServeError. now destruct (displayErrors h). Qed.

Lemma AlwaysServeError_protocol h w message :
  ErrorHandler_.AlwaysServeError h w message =
  render_then_commit (template h) (ErrorMessageData (mkErrorMessage message))
    StatusInternalServerError w.
Proof. reflexivity. Qed.

Lemma ErrorHandler_ServeHTTP_protocol h w r :
  ErrorHandler_.ServeHTTP h w r =
  render_then_commit (template h)
    (ErrorMessageData (mkErrorMessage (defaultMessage h)))
    StatusInternalServerError w.
Proof. reflexivity. Qed.

Lemma NotFoundHandler_ServeHTTP_protocol h w r :
  NotFoundHandler_.ServeHTTP h w r =
  render_then_commit (nf_template h)
    (NotFoundDataData (mkNotFoundData (URL_Path r))) StatusNotFound w.
Proof. reflexivity. Qed.

Lemma render_then_commit_success t data code w :
  render_error t data = None ->
  render_then_commit t data code w =
  (map BufferWrite (fst (run t data))
     ++ ExecuteReturn None :: map Transport (commit_calls code (rendered t data)),
   Returned tt).
Proof.
  intro Hok. unfold render_then_commit. rewrite Execute_buffer, Hok.
  unfold w_WriteHeader, WriteTo, commit_calls. cbn [bind emit].
  destruct (String.eqb (rendered t data) ""); cbn;
    now rewrite <- app_assoc.
Qed.

Lemma render_then_commit_failure t data code w e :
  render_error t data = Some e ->
  render_then_commit t data code w =
  (map BufferWrite (fst (run t data))
     ++ [ExecuteReturn (Some e); Transport (Error e StatusInternalServerError)],
   Returned tt).
Proof.
  intro Hko. unfold render_then_commit. rewrite Execute_buffer, Hko.
  unfold http_Error. cbn. now rewrite <- app_assoc.
Qed.

Lemma buffered_silent chunks e cs :
  silent_until_rendered
    (map BufferWrite chunks ++ ExecuteReturn e :: map Transport cs).
Proof.
  unfold silent_until_rendered.
  induction chunks as [|p chunks IH]; intros pre err post Heq.
  - destruct pre as [|x pre]; [reflexivity |].
    simpl in Heq. injection Heq as _ Hrest. exfalso.
    assert (Hin : In (ExecuteReturn err) (map Transport cs))
      by (rewrite Hrest; apply in_or_app; right; left; reflexivity).
    apply in_map_iff in Hin. destruct Hin as [c [Hc _]]. discriminate Hc.
  - destruct pre as [|x pre]; [reflexivity |].
    simpl in Heq. injection Heq as Hx Hrest. subst x. simpl.
    eapply IH. exact Hrest.
Qed.

(** ** What the recorder holds after the protocol *)

Lemma recorded_commit sys r code body :
  nethttp.rec_calls sys r nethttp.NewRecorder (commit_calls code body) =
  Some (nethttp.mkResponse true code None body).
Proof.
  unfold commit_calls. destruct (String.eqb_spec body "") as [-> | _];
    reflexivity.
Qed.

Lemma recorded_Error sys r e code :
  nethttp.rec_calls sys r nethttp.NewRecorder [Error e code] =
  Some (nethttp.mkResponse true code None (e ++ nethttp.newline)%string).
Proof. reflexivity. Qed.

Lemma render_then_commit_committed sys r t data code w :
  render_error t data = None ->
  committed sys r (render_then_commit t data code w) t data code.
Proof.
  intro Hok. unfold committed, nethttp.recorded.
  rewrite (render_then_commit_success t data code w Hok). cbn [trace result fst snd].
  repeat split.
  - apply buffered_silent.
  - rewrite transport_app, transport_buffer_writes. cbn [app transport].
    rewrite transport_calls. apply recorded_commit.
Qed.

Lemma render_then_commit_fell_back sys r t data code w e :
  render_error t data = Some e ->
  fell_back sys r (render_then_commit t data code w) t data e.
Proof.
  intro Hko. unfold fell_back, nethttp.recorded.
  rewrite (render_then_commit_failure t data code w e Hko). cbn [trace result fst snd].
  rewrite transport_app, transport_buffer_writes. cbn [app transport].
  repeat split.
  apply (buffered_silent _ _ [Error e StatusInternalServerError]).
Qed.

(** ** The claims about the template handlers *)

(** C1.  Whenever the template renders the value without an error, each of
    [ServeError], [AlwaysServeError], [ErrorHandler.ServeHTTP] and
    [NotFoundHandler.ServeHTTP] first renders into its buffer and only
    after [Execute] has returned calls the response writer, with exactly
    [WriteHeader(500)] (404 for the not-found handler) followed by the
    whole buffer as the body. *)
Theorem C1_render_then_commit :
  forall (sys : Platform) (t : Template) (defaultMsg : string) (display : bool)
         (w : ResponseWriter) (r : Request) (message : string),
    (render_error t
       (ErrorMessageData
          (mkErrorMessage (if display then message else defaultMsg))) = None ->
     committed sys r
       (ErrorHandler_.ServeError (NewErrorHandler t defaultMsg display) w message)
       t (ErrorMessageData
            (mkErrorMessage (if display then message else defaultMsg)))
       StatusInternalServerError)
    /\ (render_error t (ErrorMessageData (mkErrorMessage message)) = None ->
        committed sys r
          (ErrorHandler_.AlwaysServeError
             (NewErrorHandler t defaultMsg display) w message)
          t (ErrorMessageData (mkErrorMessage message))
          StatusInternalServerError)
    /\ (render_error t (ErrorMessageData (mkErrorMessage defaultMsg)) = None ->
        committed sys r
          (ErrorHandler_.ServeHTTP (NewErrorHandler t defaultMsg display) w r)
          t (ErrorMessageData (mkErrorMessage defaultMsg))
          StatusInternalServerError)
    /\ (render_error t (NotFoundDataData (mkNotFoundData (URL_Path r))) = None ->
        committed sys r
          (NotFoundHandler_.ServeHTTP (NewNotFoundHandler t) w r)
          t (NotFoundDataData (mkNotFoundData (URL_Path r)))
          StatusNotFound).
Proof.
  intros sys t defaultMsg display w r message.
  rewrite ServeError_protocol, AlwaysServeError_protocol,
    ErrorHandler_ServeHTTP_protocol, NotFoundHandler_ServeHTTP_protocol.
  cbn [NewErrorHandler NewNotFoundHandler template defaultMessage
       displayErrors nf_template].
  split; [| split; [| split]]; intro Hok;
    now apply render_then_commit_committed.
Qed.

(** C1 at the templates of the tests: the error page for a caller's
    message and the not-found page for [/path]. *)
Lemma C1_render_then_commit_witness :
  committed Fixture.unix (Fixture.GET "/path")
    (ErrorHandler_.ServeError
       (NewErrorHandler Fixture.error_html "Default error message" true)
       Fixture.w "Test ServeError")
    Fixture.error_html
    (ErrorMessageData (mkErrorMessage "Test ServeError"))
    StatusInternalServerError
  /\ committed Fixture.unix (Fixture.GET "/path")
       (NotFoundHandler_.ServeHTTP
          (NewNotFoundHandler Fixture.notfound_html)
          Fixture.w (Fixture.GET "/path"))
       Fixture.notfound_html
       (NotFoundDataData (mkNotFoundData "/path"))
       StatusNotFound.
Proof.
  pose proof (C1_render_then_commit Fixture.unix Fixture.error_html
                "Default error message" true Fixture.w (Fixture.GET "/path")
                "Test ServeError") as [H1 _].
  pose proof (C1_render_then_commit Fixture.unix Fixture.notfound_html
                "Default error message" true Fixture.w (Fixture.GET "/path")
                "Test ServeError") as [_ [_ [_ H4]]].
  split; [apply H1 | apply H4]; reflexivity.
Defined.

(** C6.  Whenever the template fails on the value, each of the four
    methods leaves its buffer behind and answers with
    [http.Error(w, err, 500)] and nothing else: status 500 and the error
    text as the body.  The method returns normally; it neither panics nor
    hands the error to its caller (it has no result). *)
Theorem C6_render_failure_falls_back :
  forall (sys : Platform) (t : Template) (defaultMsg : string) (display : bool)
         (w : ResponseWriter) (r : Request) (message : string) (e : string),
    (render_error t
       (ErrorMessageData
          (mkErrorMessage (if display then message else defaultMsg))) = Some e ->
     fell_back sys r
       (ErrorHandler_.ServeError (NewErrorHandler t defaultMsg display) w message)
       t (ErrorMessageData
            (mkErrorMessage (if display then message else defaultMsg))) e)
    /\ (render_error t (ErrorMessageData (mkErrorMessage message)) = Some e ->
        fell_back sys r
          (ErrorHandler_.AlwaysServeError
             (NewErrorHandler t defaultMsg display) w message)
          t (ErrorMessageData (mkErrorMessage message)) e)
    /\ (render_error t (ErrorMessageData (mkErrorMessage defaultMsg)) = Some e ->
        fell_back sys r
          (ErrorHandler_.ServeHTTP (NewErrorHandler t defaultMsg display) w r)
          t (ErrorMessageData (mkErrorMessage defaultMsg)) e)
    /\ (render_error t (NotFoundDataData (mkNotFoundData (URL_Path r))) = Some e ->
        fell_back sys r
          (NotFoundHandler_.ServeHTTP (NewNotFoundHandler t) w r)
          t (NotFoundDataData (mkNotFoundData (URL_Path r))) e).
Proof.
  intros sys t defaultMsg display w r message e.
  rewrite ServeError_protocol, AlwaysServeError_protocol,
    ErrorHandler_ServeHTTP_protocol, NotFoundHandler_ServeHTTP_protocol.
  cbn [NewErrorHandler NewNotFoundHandler template defaultMessage
       displayErrors nf_template].
  split; [| split; [| split]]; intro Hko;
    now apply render_then_commit_fell_back.
Qed.

(** C6 at a template that writes [<h1>] and then fails. *)
Lemma C6_render_failure_falls_back_witness :
  fell_back Fixture.unix (Fixture.GET "/path")
    (ErrorHandler_.ServeError
       (NewErrorHandler Fixture.broken_html "Default error message" false)
       Fixture.w "Test ServeError")
    Fixture.broken_html
    (ErrorMessageData (mkErrorMessage "Default error message"))
    "can't evaluate field Missing"
  /\ fell_back Fixture.unix (Fixture.GET "/path")
       (NotFoundHandler_.ServeHTTP
          (NewNotFoundHandler Fixture.broken_html)
          Fixture.w (Fixture.GET "/path"))
       Fixture.broken_html
       (NotFoundDataData (mkNotFoundData "/path"))
       "can't evaluate field Missing".
Proof.
  pose proof (C6_render_failure_falls_back Fixture.unix Fixture.broken_html
                "Default error message" false Fixture.w (Fixture.GET "/path")
                "Test ServeError" "can't evaluate field Missing")
    as [H1 [_ [_ H4]]].
  split; [apply H1 | apply H4]; reflexivity.
Defined.

(** The earlier revision does not have this discipline: the status line is
    on the response writer before the template runs, and the template
    writes into the response as it goes. *)
Lemma Unbuffered_ServeError_trace h w message :
  Unbuffered.ServeError h w message =
  (Transport (WriteHeader StatusInternalServerError)
     :: map (fun p => Transport (Write p))
          (fst (run (template h)
                  (ErrorMessageData
                     (mkErrorMessage
                        (if displayErrors h then message
                         else defaultMessage h)))))
     ++ [ExecuteReturn
           (render_error (template h)
              (ErrorMessageData
                 (mkErrorMessage
                    (if displayErrors h then message else defaultMessage h))))],
   Returned tt).
Proof.
  unfold Unbuffered.ServeError, w_WriteHeader.
  destruct (displayErrors h); rewrite Execute_response; cbn;
    now rewrite app_nil_r.
Qed.

Lemma Unbuffered_not_silent h w message :
  ~ silent_until_rendered (trace (Unbuffered.ServeError h w message)).
Proof.
  rewrite Unbuffered_ServeError_trace. cbn [trace fst].
  intro Hsilent.
  specialize (Hsilent
    (Transport (WriteHeader StatusInternalServerError)
       :: map (fun p => Transport (Write p))
            (fst (run (template h)
                    (ErrorMessageData
                       (mkErrorMessage
                          (if displayErrors h then message
                           else defaultMessage h))))))
    _ [] eq_refl).
  discriminate Hsilent.
Qed.

(** C7.  For every path [p], the empty one and [/] included, the not-found
    handler answers a request for [p] with status 404 and, as the body,
    the template rendered on [NotFoundData{p}], the path as the request
    carries it, provided the template renders that value. *)
Theorem C7_not_found_page :
  forall (sys : Platform) (t : Template) (w : ResponseWriter)
         (method p query : string),
    render_error t (NotFoundDataData (mkNotFoundData p)) = None ->
    nethttp.recorded sys (mkRequest method p query)
      (NotFoundHandler_.ServeHTTP (NewNotFoundHandler t) w
         (mkRequest method p query)) =
    Some (nethttp.mkResponse true StatusNotFound None
            (rendered t (NotFoundDataData (mkNotFoundData p)))).
Proof.
  intros sys t w method p query Hok.
  rewrite NotFoundHandler_ServeHTTP_protocol.
  apply (render_then_commit_committed sys (mkRequest method p query)
           t _ StatusNotFound w Hok).
Qed.

(** C7 at the template of the tests, for the empty path and for [/]. *)
Lemma C7_not_found_page_witness :
  nethttp.recorded Fixture.unix (Fixture.GET "")
    (NotFoundHandler_.ServeHTTP Fixture.nfh Fixture.w (Fixture.GET "")) =
  Some (nethttp.mkResponse true 404 None "Not Found: ")
  /\ nethttp.recorded Fixture.unix (Fixture.GET "/")
       (NotFoundHandler_.ServeHTTP Fixture.nfh Fixture.w (Fixture.GET "/")) =
     Some (nethttp.mkResponse true 404 None "Not Found: /").
Proof.
  split.
  - apply (C7_not_found_page Fixture.unix Fixture.notfound_html Fixture.w
             "GET" "" ""). reflexivity.
  - apply (C7_not_found_page Fixture.unix Fixture.notfound_html Fixture.w
             "GET" "/" ""). reflexivity.
Defined.

(** ** The display policy of the error handler *)

Lemma render_then_commit_status sys r t data w :
  exists resp,
    nethttp.recorded sys r
      (render_then_commit t data StatusInternalServerError w) = Some resp
    /\ nethttp.Code resp = StatusInternalServerError.
Proof.
  destruct (render_error t data) as [e|] eqn:Herr.
  - destruct (render_then_commit_fell_back sys r t data
                StatusInternalServerError w e Herr) as (_ & _ & _ & _ & Hrec).
    eexists. split; [exact Hrec | reflexivity].
  - destruct (render_then_commit_committed sys r t data
                StatusInternalServerError w Herr) as (_ & _ & _ & Hrec).
    eexists. split; [exact Hrec | reflexivity].
Qed.

(** C8.  [ServeError] and [AlwaysServeError] always answer with status
    500.  With [displayErrors] the page of [ServeError(m)] is the template
    rendered on [m], without it the template rendered on the default
    message; the page of [AlwaysServeError(m)] is the template rendered on
    [m] in both cases.  [ServeError(m)] does what [AlwaysServeError(m)]
    does, for every template, exactly when [displayErrors] is set (or [m]
    is the default message itself). *)
Theorem C8_display_policy :
  forall (sys : Platform) (t : Template) (defaultMsg : string) (display : bool)
         (w : ResponseWriter) (r : Request) (m : string),
    (exists resp,
        nethttp.recorded sys r
          (ErrorHandler_.ServeError (NewErrorHandler t defaultMsg display) w m)
        = Some resp
        /\ nethttp.Code resp = StatusInternalServerError)
    /\ (exists resp,
          nethttp.recorded sys r
            (ErrorHandler_.AlwaysServeError
               (NewErrorHandler t defaultMsg display) w m)
          = Some resp
          /\ nethttp.Code resp = StatusInternalServerError)
    /\ (display = true ->
        render_error t (ErrorMessageData (mkErrorMessage m)) = None ->
        committed sys r
          (ErrorHandler_.ServeError (NewErrorHandler t defaultMsg display) w m)
          t (ErrorMessageData (mkErrorMessage m)) StatusInternalServerError)
    /\ (display = false ->
        render_error t (ErrorMessageData (mkErrorMessage defaultMsg)) = None ->
        committed sys r
          (ErrorHandler_.ServeError (NewErrorHandler t defaultMsg display) w m)
          t (ErrorMessageData (mkErrorMessage defaultMsg))
          StatusInternalServerError)
    /\ (render_error t (ErrorMessageData (mkErrorMessage m)) = None ->
        committed sys r
          (ErrorHandler_.AlwaysServeError
             (NewErrorHandler t defaultMsg display) w m)
          t (ErrorMessageData (mkErrorMessage m)) StatusInternalServerError)
    /\ ((forall t' : Template,
            ErrorHandler_.ServeError (NewErrorHandler t' defaultMsg display) w m
            = ErrorHandler_.AlwaysServeError
                (NewErrorHandler t' defaultMsg display) w m)
        <-> (display = true \/ m = defaultMsg)).
Proof.
  intros sys t defaultMsg display w r m.
  split; [| split; [| split; [| split; [| split]]]].
  - rewrite ServeError_protocol. apply render_then_commit_status.
  - rewrite AlwaysServeError_protocol. apply render_then_commit_status.
  - intros -> Hok. rewrite ServeError_protocol.
    now apply render_then_commit_committed.
  - intros -> Hok. rewrite ServeError_protocol.
    now apply render_then_commit_committed.
  - intro Hok. rewrite AlwaysServeError_protocol.
    now apply render_then_commit_committed.
  - split.
    + intro Hsame. destruct display; [now left | right].
      specialize (Hsame echo).
      rewrite ServeError_protocol, AlwaysServeError_protocol in Hsame.
      cbn [NewErrorHandler template defaultMessage displayErrors] in Hsame.
      rewrite (render_then_commit_success echo
                 (ErrorMessageData (mkErrorMessage defaultMsg)) _ w eq_refl),
              (render_then_commit_success echo
                 (ErrorMessageData (mkErrorMessage m)) _ w eq_refl) in Hsame.
      cbn [echo run fst map app] in Hsame.
      injection Hsame as Hhead _. now symmetry.
    + intros [-> | ->] t'; rewrite ServeError_protocol, AlwaysServeError_protocol.
      * reflexivity.
      * now destruct display.
Qed.

(** C8 at the template and the messages of TestErrorHandler. *)
Lemma C8_display_policy_witness :
  committed Fixture.unix (Fixture.GET "/")
    (ErrorHandler_.ServeError
       (NewErrorHandler Fixture.error_html "Default error message" true)
       Fixture.w "Test ServeError")
    Fixture.error_html (ErrorMessageData (mkErrorMessage "Test ServeError"))
    StatusInternalServerError
  /\ committed Fixture.unix (Fixture.GET "/")
       (ErrorHandler_.ServeError
          (NewErrorHandler Fixture.error_html "Default error message" false)
          Fixture.w "Test ServeError")
       Fixture.error_html
       (ErrorMessageData (mkErrorMessage "Default error message"))
       StatusInternalServerError
  /\ committed Fixture.unix (Fixture.GET "/")
       (ErrorHandler_.AlwaysServeError
          (NewErrorHandler Fixture.error_html "Default error message" false)
          Fixture.w "Test ServeError")
       Fixture.error_html (ErrorMessageData (mkErrorMessage "Test ServeError"))
       StatusInternalServerError.
Proof.
  pose proof (C8_display_policy Fixture.unix Fixture.error_html
                "Default error message" true Fixture.w (Fixture.GET "/")
                "Test ServeError") as (_ & _ & Hshow & _).
  pose proof (C8_display_policy Fixture.unix Fixture.error_html
                "Default error message" false Fixture.w (Fixture.GET "/")
                "Test ServeError") as (_ & _ & _ & Hhide & Halways & _).
  split; [| split].
  - apply Hshow; reflexivity.
  - apply Hhide; reflexivity.
  - apply Halways; reflexivity.
Defined.

(** C8, as stated, fails: with [displayErrors] off, [ServeError] called
    with the default message itself answers with a body that contains the
    message it was called with, so that body contains the message without
    the flag being set. *)
Lemma C8_message_shown_without_display :
  displayErrors
    (NewErrorHandler Fixture.error_html "Default error message" false) = false
  /\ nethttp.recorded Fixture.unix (Fixture.GET "/")
       (ErrorHandler_.ServeError
          (NewErrorHandler Fixture.error_html "Default error message" false)
          Fixture.w "Default error message") =
     Some (nethttp.mkResponse true 500 None "Error: Default error message")
  /\ Contains "Error: Default error message" "Default error message" = true
  /\ ~ (forall resp : nethttp.Response,
           nethttp.recorded Fixture.unix (Fixture.GET "/")
             (ErrorHandler_.ServeError
                (NewErrorHandler Fixture.error_html "Default error message"
                   false)
                Fixture.w "Default error message") = Some resp ->
           (Contains (nethttp.Body resp) "Default error message" = true
            <-> displayErrors
                  (NewErrorHandler Fixture.error_html "Default error message"
                     false) = true)).
Proof.
  split; [reflexivity | split; [reflexivity | split; [reflexivity |]]].
  intro Hiff.
  specialize (Hiff _ eq_refl). destruct Hiff as [Hshown _].
  discriminate (Hshown eq_refl).
Qed.

(** C9, as stated, fails: with [displayErrors] set, [ServeError] called
    with an empty message renders the empty message, while [ServeHTTP]
    renders the default one. *)
Lemma C9_ServeHTTP_differs_from_ServeError_when_displaying :
  nethttp.recorded Fixture.unix (Fixture.GET "/")
    (ErrorHandler_.ServeHTTP
       (NewErrorHandler Fixture.error_html "Default error message" true)
       Fixture.w (Fixture.GET "/")) =
  Some (nethttp.mkResponse true 500 None "Error: Default error message")
  /\ nethttp.recorded Fixture.unix (Fixture.GET "/")
       (ErrorHandler_.ServeError
          (NewErrorHandler Fixture.error_html "Default error message" true)
          Fixture.w "") =
     Some (nethttp.mkResponse true 500 None "Error: ")
  /\ ErrorHandler_.ServeHTTP
       (NewErrorHandler Fixture.error_html "Default error message" true)
       Fixture.w (Fixture.GET "/")
     <> ErrorHandler_.ServeError
          (NewErrorHandler Fixture.error_html "Default error message" true)
          Fixture.w "".
Proof.
  split; [reflexivity | split; [reflexivity | discriminate]].
Qed.

(** C9, amended.  [ErrorHandler.ServeHTTP] renders the default message in
    every configuration: it does what [AlwaysServeError] does on the
    default message, and when the template renders it the page is the
    template rendered on the default message, with status 500.  It does
    what [ServeError] does, whatever message that is called with, when
    [displayErrors] is not set. *)
Theorem C9_ServeHTTP_serves_default :
  forall (sys : Platform) (t : Template) (defaultMsg : string) (display : bool)
         (w : ResponseWriter) (r : Request),
    ErrorHandler_.ServeHTTP (NewErrorHandler t defaultMsg display) w r
    = ErrorHandler_.AlwaysServeError
        (NewErrorHandler t defaultMsg display) w defaultMsg
    /\ (render_error t (ErrorMessageData (mkErrorMessage defaultMsg)) = None ->
        committed sys r
          (ErrorHandler_.ServeHTTP (NewErrorHandler t defaultMsg display) w r)
          t (ErrorMessageData (mkErrorMessage defaultMsg))
          StatusInternalServerError)
    /\ (display = false ->
        forall m : string,
          ErrorHandler_.ServeHTTP (NewErrorHandler t defaultMsg display) w r
          = ErrorHandler_.ServeError
              (NewErrorHandler t defaultMsg display) w m).
Proof.
  intros sys t defaultMsg display w r.
  split; [reflexivity | split].
  - intro Hok. rewrite ErrorHandler_ServeHTTP_protocol.
    now apply render_then_commit_committed.
  - intros -> m. reflexivity.
Qed.

(** C9 (amended) at the handler of the tests that displays errors: the
    default handler still serves the default message. *)
Lemma C9_ServeHTTP_serves_default_witness :
  committed Fixture.unix (Fixture.GET "/")
    (ErrorHandler_.ServeHTTP
       (NewErrorHandler Fixture.error_html "Default error message" true)
       Fixture.w (Fixture.GET "/"))
    Fixture.error_html
    (ErrorMessageData (mkErrorMessage "Default error message"))
    StatusInternalServerError.
Proof.
  pose proof (C9_ServeHTTP_serves_default Fixture.unix Fixture.error_html
                "Default error message" true Fixture.w (Fixture.GET "/"))
    as (_ & Hpage & _).
  apply Hpage. reflexivity.
Defined.

(* ================================================================= *)
(** ** The file handler *)

Lemma bind_emit (e : Event) (k : Go unit) :
  (emit e ;;; k) = (e :: trace k, result k).
Proof. destruct k as [tr res]. reflexivity. Qed.

Lemma ServeHTTP_resolved sys h w r target :
  resolved sys h r = Some target ->
  FileHandler_.ServeHTTP sys h w r =
  (OsStat target :: trace (after_stat sys h w r target),
   result (after_stat sys h w r target)).
Proof.
  unfold resolved, FileHandler_.ServeHTTP.
  destruct (slice_from (URL_Path r) (len (urlPath h) - 1)) as [requestPath|];
    [| discriminate].
  cbv zeta. rewrite !bind_emit. cbn [trace fst].
  intro Htarget. injection Htarget as <-. reflexivity.
Qed.

Lemma IsDir_not_IsRegular (m : os.FileMode) :
  os.IsDir m = true -> os.IsRegular m = false.
Proof.
  unfold os.IsDir, os.IsRegular. intro Hdir.
  apply negb_true_iff, Z.eqb_neq in Hdir. apply Z.eqb_neq. intro Hreg.
  apply Hdir.
  replace os.ModeDir with (Z.land os.ModeType os.ModeDir) by reflexivity.
  now rewrite Z.land_assoc, Hreg.
Qed.




(** ** The resolved target *)

Lemma prefix_app (u p : string) :
  String.prefix u p = true -> exists rest, p = (u ++ rest)%string.
Proof.
  revert p; induction u as [|c u IH]; intros p Hpre.
  - exists p. reflexivity.
  - destruct p as [|c' p]; [discriminate |]. simpl in Hpre.
    destruct (Ascii.ascii_dec c c') as [-> | _]; [| discriminate].
    destruct (IH p Hpre) as [rest ->]. exists rest. reflexivity.
Qed.

Lemma length_app (u v : string) :
  String.length (u ++ v) = (String.length u + String.length v)%nat.
Proof. induction u as [|c u IH]; simpl; [reflexivity | now rewrite IH]. Qed.

Lemma drop_app (n : nat) (u v : string) :
  (n <= String.length u)%nat -> drop n (u ++ v) = (drop n u ++ v)%string.
Proof.
  revert u; induction n as [|n IH]; intros u Hn; [reflexivity |].
  destruct u as [|c u]; simpl in *; [lia |]. apply IH. lia.
Qed.

Lemma slice_from_in_range (s : string) (n : nat) :
  (n <= String.length s)%nat -> slice_from s (Z.of_nat n) = Some (drop n s).
Proof.
  intro Hn. unfold slice_from, len.
  replace (Z.of_nat n <? 0) with false by (symmetry; apply Z.ltb_ge; lia).
  replace (Z.of_nat (String.length s) <? Z.of_nat n) with false
    by (symmetry; apply Z.ltb_ge; lia).
  cbn [orb]. now rewrite Nat2Z.id.
Qed.

(** On every platform: the target of a request under a non-empty url path
    is the directory followed by the converted rest of the path, with the
    index page added after a final slash. *)
Lemma resolved_target sys h r :
  urlPath h <> "" ->
  strings.HasPrefix (URL_Path r) (urlPath h) = true ->
  resolved sys h r =
  Some (if strings.HasSuffix (URL_Path r) "/"
        then (directory h ++
              filepath.FromSlash (Separator sys)
                (drop (String.length (urlPath h) - 1) (URL_Path r)
                 ++ "index.html"))%string
        else (directory h ++
              filepath.FromSlash (Separator sys)
                (drop (String.length (urlPath h) - 1) (URL_Path r)))%string).
Proof.
  intros Hne Hpre. unfold resolved, FileHandler_.ServeHTTP.
  destruct (prefix_app _ _ Hpre) as [rest Hp].
  assert (Hlen : (1 <= String.length (urlPath h))%nat)
    by (destruct (urlPath h); [congruence | simpl; lia]).
  replace (len (urlPath h) - 1)
    with (Z.of_nat (String.length (urlPath h) - 1)) by (unfold len; lia).
  rewrite slice_from_in_range
    by (rewrite Hp, length_app; lia).
  cbv zeta. rewrite bind_emit. cbn [trace fst]. reflexivity.
Qed.

Lemma drop_length (n : nat) (s : string) :
  String.length (drop n s) = (String.length s - n)%nat.
Proof.
  revert s; induction n as [|n IH]; intro s; [simpl; lia |].
  destruct s as [|c s]; [reflexivity | apply IH].
Qed.

(** C5, as stated, fails: what is kept of the request path need not start
    with exactly one slash.  After the url path [/test/] the path
    [/test//x] keeps [//x], with two slashes; and with the url path
    [/test] the path [/test/index.html] keeps [t/index.html], with none. *)
Lemma C5_leading_slashes_are_kept :
  strings.HasPrefix "/test//x" (urlPath Fixture.fh) = true
  /\ drop (String.length (urlPath Fixture.fh) - 1) "/test//x" = "//x"
  /\ leading_slashes
       (drop (String.length (urlPath Fixture.fh) - 1) "/test//x") <> 1%nat
  /\ resolved Fixture.unix Fixture.fh (Fixture.GET "/test//x")
     = Some "./test//x"
  /\ strings.HasPrefix "/test/index.html" (urlPath Inputs.fh_without_slash)
     = true
  /\ leading_slashes
       (drop (String.length (urlPath Inputs.fh_without_slash) - 1)
          "/test/index.html") <> 1%nat
  /\ resolved Fixture.unix Inputs.fh_without_slash
       (Fixture.GET "/test/index.html")
     = Some "./testt/index.html".
Proof. repeat split; discriminate. Qed.

(** C5, amended.  For a request path that starts with the non-empty url
    path of the handler, what is kept of it is the request path without
    its first [len(urlPath) - 1] bytes: the last byte of the url path
    followed by all that comes after the url path in the request, as it
    is.  It starts with a slash when the url path ends with one.  The
    target is the directory followed by [filepath.FromSlash] of what is
    kept, with [index.html] added to it before when the request path ends
    with a slash; where the separator is the slash, [filepath.FromSlash]
    changes nothing. *)
Theorem C5_target_of_request :
  forall (sys : Platform) (h : FileHandler) (r : Request),
    urlPath h <> "" ->
    strings.HasPrefix (URL_Path r) (urlPath h) = true ->
    resolved sys h r =
      Some (if strings.HasSuffix (URL_Path r) "/"
            then (directory h ++
                  filepath.FromSlash (Separator sys)
                    (drop (String.length (urlPath h) - 1) (URL_Path r)
                     ++ "index.html"))%string
            else (directory h ++
                  filepath.FromSlash (Separator sys)
                    (drop (String.length (urlPath h) - 1) (URL_Path r)))%string)
    /\ (Separator sys = "/"%char ->
        resolved sys h r =
          Some (if strings.HasSuffix (URL_Path r) "/"
                then (directory h
                      ++ drop (String.length (urlPath h) - 1) (URL_Path r)
                      ++ "index.html")%string
                else (directory h
                      ++ drop (String.length (urlPath h) - 1)
                           (URL_Path r))%string))
    /\ (exists rest : string,
           URL_Path r = (urlPath h ++ rest)%string
           /\ drop (String.length (urlPath h) - 1) (URL_Path r)
              = (drop (String.length (urlPath h) - 1) (urlPath h) ++ rest)%string
           /\ String.length
                (drop (String.length (urlPath h) - 1) (urlPath h)) = 1%nat)
    /\ (strings.HasSuffix (urlPath h) "/" = true ->
        strings.HasPrefix
          (drop (String.length (urlPath h) - 1) (URL_Path r)) "/" = true).
Proof.
  intros sys h r Hne Hpre.
  assert (Hlen : (1 <= String.length (urlPath h))%nat)
    by (destruct (urlPath h); [congruence | simpl; lia]).
  split; [apply (resolved_target sys h r Hne Hpre) | split; [| split]].
  - intro Hsep. rewrite (resolved_target sys h r Hne Hpre).
    unfold filepath.FromSlash. rewrite Hsep. reflexivity.
  - destruct (prefix_app _ _ Hpre) as [rest Hrest].
    exists rest. split; [exact Hrest | split].
    + rewrite Hrest at 1. apply drop_app. lia.
    + rewrite drop_length. lia.
  - intro Hslash. destruct (prefix_app _ _ Hpre) as [rest ->].
    rewrite drop_app by lia.
    unfold strings.HasSuffix in Hslash.
    apply andb_true_iff in Hslash. destruct Hslash as [_ Hlast].
    apply String.eqb_eq in Hlast. cbn [String.length] in Hlast.
    rewrite Hlast. unfold strings.HasPrefix. simpl.
    destruct (Ascii.ascii_dec "/" "/") as [_ | Hdiff];
      [now destruct rest | now elim Hdiff].
Qed.

(** C5 (amended) at the requests of the tests for [/test/] and for
    [/test/sub2/not-index.html]. *)
Lemma C5_target_of_request_witness :
  resolved Fixture.unix Fixture.fh (Fixture.GET "/test/")
    = Some "./test/index.html"
  /\ resolved Fixture.unix Fixture.fh (Fixture.GET "/test/sub2/not-index.html")
     = Some "./test/sub2/not-index.html".
Proof.
  split.
  - destruct (C5_target_of_request Fixture.unix Fixture.fh
                (Fixture.GET "/test/")) as (_ & Hunix & _);
      [discriminate | reflexivity | exact (Hunix eq_refl)].
  - destruct (C5_target_of_request Fixture.unix Fixture.fh
                (Fixture.GET "/test/sub2/not-index.html")) as (_ & Hunix & _);
      [discriminate | reflexivity | exact (Hunix eq_refl)].
Defined.

(** With an empty url path the slice expression panics, on every request. *)
Lemma empty_urlPath_panics sys directory nfh w r :
  FileHandler_.ServeHTTP sys (NewFileHandler "" directory nfh) w r
  = ([], Panicked).
Proof. reflexivity. Qed.

(** ** Regular files *)

(** A regular file is handed to [http.ServeFile], and to nothing else. *)
Lemma regular_file_served sys h w r target finfo :
  resolved sys h r = Some target ->
  Stat sys target = inl finfo ->
  os.IsRegular (os.Mode finfo) = true ->
  FileHandler_.ServeHTTP sys h w r =
  ([OsStat target; Transport (ServeFile target)], Returned tt).
Proof.
  intros Htarget Hstat Hreg.
  rewrite (ServeHTTP_resolved sys h w r target Htarget).
  unfold after_stat. rewrite Hstat, Hreg.
  destruct (os.IsDir (os.Mode finfo)) eqn:Hdir; [| reflexivity].
  apply IsDir_not_IsRegular in Hdir. congruence.
Qed.

(** For a request whose path does not end in [/index.html], the library
    sends the file: status 200 and its bytes. *)
Lemma regular_file_response sys h w r target finfo :
  resolved sys h r = Some target ->
  Stat sys target = inl finfo ->
  os.IsRegular (os.Mode finfo) = true ->
  nethttp.containsDotDot (URL_Path r) = false ->
  strings.HasSuffix (URL_Path r) "/index.html" = false ->
  Method r = "GET" ->
  nethttp.recorded sys r (FileHandler_.ServeHTTP sys h w r) =
  Some (nethttp.mkResponse true StatusOK None (Content sys target)).
Proof.
  intros Htarget Hstat Hreg Hdots Hindex Hget.
  unfold nethttp.recorded.
  rewrite (regular_file_served sys h w r target finfo Htarget Hstat Hreg).
  cbn [trace fst transport nethttp.rec_calls nethttp.rec_call].
  unfold nethttp.rec_ServeFile. rewrite Hdots, Hindex, Hstat, Hreg, Hget.
  reflexivity.
Qed.




(** ** Files that are neither directories nor regular *)

(** The two cases of the switch exclude each other but do not cover every
    mode: for any other file the handler returns without a call on the
    response writer. *)
Lemma special_file_unanswered sys h w r target finfo :
  resolved sys h r = Some target ->
  Stat sys target = inl finfo ->
  os.IsDir (os.Mode finfo) = false ->
  os.IsRegular (os.Mode finfo) = false ->
  FileHandler_.ServeHTTP sys h w r = ([OsStat target], Returned tt).
Proof.
  intros Htarget Hstat Hdir Hreg.
  rewrite (ServeHTTP_resolved sys h w r target Htarget).
  unfold after_stat. rewrite Hstat, Hdir, Hreg. reflexivity.
Qed.

(** C10 fails on the code: [os.Stat] succeeds on the named pipe
    [./test/fifo], its mode is neither that of a directory nor regular,
    and the handler returns without having called the response writer. *)
Theorem C10_named_pipe_unanswered :
  Stat Fixture.unix "./test/fifo" = inl Fixture.pipe
  /\ os.IsDir (os.Mode Fixture.pipe) = false
  /\ os.IsRegular (os.Mode Fixture.pipe) = false
  /\ FileHandler_.ServeHTTP Fixture.unix Fixture.fh Fixture.w
       (Fixture.GET "/test/fifo") = ([OsStat "./test/fifo"], Returned tt)
  /\ transport
       (trace (FileHandler_.ServeHTTP Fixture.unix Fixture.fh Fixture.w
                 (Fixture.GET "/test/fifo"))) = [].
Proof. repeat split. Qed.


(* ================================================================= *)
(** ** The earlier revision against the later one *)

Lemma Unbuffered_ServeError_protocol h w message :
  Unbuffered.ServeError h w message =
  status_then_render (template h)
    (ErrorMessageData
       (mkErrorMessage (if displayErrors h then message else defaultMessage h)))
    StatusInternalServerError w.
Proof. unfold Unbuffered.ServeError. now destruct (displayErrors h). Qed.

Lemma Unbuffered_AlwaysServeError_protocol h w message :
  Unbuffered.AlwaysServeError h w message =
  status_then_render (template h) (ErrorMessageData (mkErrorMessage message))
    StatusInternalServerError w.
Proof. reflexivity. Qed.

Lemma Unbuffered_ErrorHandler_ServeHTTP_protocol h w r :
  Unbuffered.ErrorHandler_ServeHTTP h w r =
  status_then_render (template h)
    (ErrorMessageData (mkErrorMessage (defaultMessage h)))
    StatusInternalServerError w.
Proof. reflexivity. Qed.

Lemma Unbuffered_NotFoundHandler_ServeHTTP_protocol h w r :
  Unbuffered.NotFoundHandler_ServeHTTP h w r =
  status_then_render (nf_template h)
    (NotFoundDataData (mkNotFoundData (URL_Path r))) StatusNotFound w.
Proof. reflexivity. Qed.

Lemma status_then_render_trace t data code w :
  status_then_render t data code w =
  (Transport (WriteHeader code)
     :: map (fun p => Transport (Write p)) (fst (run t data))
     ++ [ExecuteReturn (render_error t data)],
   Returned tt).
Proof.
  unfold status_then_render, w_WriteHeader. rewrite Execute_response.
  cbn. now rewrite app_nil_r.
Qed.

Lemma transport_response_writes (chunks : list string) (tl : Trace) :
  transport (map (fun p => Transport (Write p)) chunks ++ tl)
  = map Write chunks ++ transport tl.
Proof. induction chunks as [|p chunks IH]; simpl; [reflexivity | now rewrite IH]. Qed.

Lemma rec_calls_writes sys r code loc (chunks : list string) :
  forall body : string,
    nethttp.rec_calls sys r (nethttp.mkResponse true code loc body)
      (map Write chunks) =
    Some (nethttp.mkResponse true code loc
            (body ++ String.concat "" chunks)%string).
Proof.
  induction chunks as [|p chunks IH]; intro body.
  - cbn. now rewrite append_nil_r.
  - rewrite concat_cons. cbn [map nethttp.rec_calls nethttp.rec_call].
    unfold nethttp.rec_Write, nethttp.rec_WriteHeader.
    cbn [nethttp.wroteHeader nethttp.Code nethttp.Location nethttp.Body].
    rewrite IH. now rewrite append_assoc.
Qed.

Lemma status_then_render_streamed sys r t data code w :
  streamed sys r (status_then_render t data code w) t data code.
Proof.
  unfold streamed, nethttp.recorded. rewrite status_then_render_trace.
  cbn [trace result fst snd transport].
  rewrite transport_response_writes. cbn [transport]. rewrite app_nil_r.
  repeat split.
  cbn [nethttp.rec_calls nethttp.rec_call].
  unfold nethttp.rec_WriteHeader, nethttp.NewRecorder.
  cbn [nethttp.wroteHeader nethttp.Location nethttp.Body].
  apply (rec_calls_writes sys r code None (fst (run t data)) "").
Qed.

(** X1.  When the template renders the value without an error, the two
    revisions give the client the same response: for each of the four
    template methods the recorded status and body of the earlier,
    unbuffered revision are those of the later, buffered one. *)
Theorem X1_revisions_agree_on_success :
  forall (sys : Platform) (t : Template) (defaultMsg : string) (display : bool)
         (w : ResponseWriter) (r : Request) (message : string),
    (render_error t
       (ErrorMessageData
          (mkErrorMessage (if display then message else defaultMsg))) = None ->
     nethttp.recorded sys r
       (Unbuffered.ServeError (NewErrorHandler t defaultMsg display) w message)
     = nethttp.recorded sys r
         (ErrorHandler_.ServeError
            (NewErrorHandler t defaultMsg display) w message))
    /\ (render_error t (ErrorMessageData (mkErrorMessage message)) = None ->
        nethttp.recorded sys r
          (Unbuffered.AlwaysServeError
             (NewErrorHandler t defaultMsg display) w message)
        = nethttp.recorded sys r
            (ErrorHandler_.AlwaysServeError
               (NewErrorHandler t defaultMsg display) w message))
    /\ (render_error t (ErrorMessageData (mkErrorMessage defaultMsg)) = None ->
        nethttp.recorded sys r
          (Unbuffered.ErrorHandler_ServeHTTP
             (NewErrorHandler t defaultMsg display) w r)
        = nethttp.recorded sys r
            (ErrorHandler_.ServeHTTP (NewErrorHandler t defaultMsg display) w r))
    /\ (render_error t (NotFoundDataData (mkNotFoundData (URL_Path r))) = None ->
        nethttp.recorded sys r
          (Unbuffered.NotFoundHandler_ServeHTTP (NewNotFoundHandler t) w r)
        = nethttp.recorded sys r
            (NotFoundHandler_.ServeHTTP (NewNotFoundHandler t) w r)).
Proof.
  intros sys t defaultMsg display w r message.
  rewrite Unbuffered_ServeError_protocol, Unbuffered_AlwaysServeError_protocol,
    Unbuffered_ErrorHandler_ServeHTTP_protocol,
    Unbuffered_NotFoundHandler_ServeHTTP_protocol.
  rewrite ServeError_protocol, AlwaysServeError_protocol,
    ErrorHandler_ServeHTTP_protocol, NotFoundHandler_ServeHTTP_protocol.
  cbn [NewErrorHandler NewNotFoundHandler template defaultMessage
       displayErrors nf_template].
  split; [| split; [| split]]; intro Hok;
    match goal with
    | |- nethttp.recorded _ _ (status_then_render ?t' ?d ?c _) = _ =>
        destruct (status_then_render_streamed sys r t' d c w) as (_ & _ & ->);
        destruct (render_then_commit_committed sys r t' d c w Hok)
          as (_ & _ & _ & ->)
    end; reflexivity.
Qed.

(** X1 at the templates of the tests. *)
Lemma X1_revisions_agree_on_success_witness :
  nethttp.recorded Fixture.unix (Fixture.GET "/path")
    (Unbuffered.ServeError
       (NewErrorHandler Fixture.error_html "Default error message" true)
       Fixture.w "Test ServeError")
  = Some (nethttp.mkResponse true 500 None "Error: Test ServeError")
  /\ nethttp.recorded Fixture.unix (Fixture.GET "/path")
       (Unbuffered.NotFoundHandler_ServeHTTP
          (NewNotFoundHandler Fixture.notfound_html) Fixture.w
          (Fixture.GET "/path"))
     = Some (nethttp.mkResponse true 404 None "Not Found: /path").
Proof.
  pose proof (X1_revisions_agree_on_success Fixture.unix Fixture.error_html
                "Default error message" true Fixture.w (Fixture.GET "/path")
                "Test ServeError") as [H1 _].
  pose proof (X1_revisions_agree_on_success Fixture.unix Fixture.notfound_html
                "Default error message" true Fixture.w (Fixture.GET "/path")
                "Test ServeError") as [_ [_ [_ H4]]].
  split; [rewrite H1 | rewrite H4]; reflexivity.
Defined.

(** X2.  The earlier revision never reports a template error.  Whether the
    template ends with an error or not, each of its four methods has
    written the status line first (500, and 404 for the not-found handler)
    and then every piece of output the template produced, and returns
    normally; the error is dropped.  So when the template fails on the
    request path, the not-found handler of the earlier revision answers
    404 with the truncated page where the later revision answers 500. *)
Theorem X2_unbuffered_streams_and_drops_error :
  forall (sys : Platform) (t : Template) (defaultMsg : string) (display : bool)
         (w : ResponseWriter) (r : Request) (message : string),
    streamed sys r
      (Unbuffered.ServeError (NewErrorHandler t defaultMsg display) w message)
      t (ErrorMessageData
           (mkErrorMessage (if display then message else defaultMsg)))
      StatusInternalServerError
    /\ streamed sys r
         (Unbuffered.AlwaysServeError
            (NewErrorHandler t defaultMsg display) w message)
         t (ErrorMessageData (mkErrorMessage message))
         StatusInternalServerError
    /\ streamed sys r
         (Unbuffered.ErrorHandler_ServeHTTP
            (NewErrorHandler t defaultMsg display) w r)
         t (ErrorMessageData (mkErrorMessage defaultMsg))
         StatusInternalServerError
    /\ streamed sys r
         (Unbuffered.NotFoundHandler_ServeHTTP (NewNotFoundHandler t) w r)
         t (NotFoundDataData (mkNotFoundData (URL_Path r))) StatusNotFound
    /\ (forall e : string,
           render_error t (NotFoundDataData (mkNotFoundData (URL_Path r)))
           = Some e ->
           nethttp.recorded sys r
             (Unbuffered.NotFoundHandler_ServeHTTP (NewNotFoundHandler t) w r)
           = Some (nethttp.mkResponse true StatusNotFound None
                     (rendered t
                        (NotFoundDataData (mkNotFoundData (URL_Path r)))))
           /\ nethttp.recorded sys r
                (NotFoundHandler_.ServeHTTP (NewNotFoundHandler t) w r)
              = Some (nethttp.mkResponse true StatusInternalServerError None
                        (e ++ nethttp.newline)%string)).
Proof.
  intros sys t defaultMsg display w r message.
  rewrite Unbuffered_ServeError_protocol, Unbuffered_AlwaysServeError_protocol,
    Unbuffered_ErrorHandler_ServeHTTP_protocol,
    Unbuffered_NotFoundHandler_ServeHTTP_protocol.
  rewrite NotFoundHandler_ServeHTTP_protocol.
  cbn [NewErrorHandler NewNotFoundHandler template defaultMessage
       displayErrors nf_template].
  split; [| split; [| split; [| split]]];
    try apply status_then_render_streamed.
  intros e Hko. split.
  - apply status_then_render_streamed.
  - apply (render_then_commit_fell_back sys r t _ StatusNotFound w e Hko).
Qed.

(** X2 at a template that writes [<h1>] and then fails. *)
Lemma X2_unbuffered_streams_and_drops_error_witness :
  nethttp.recorded Fixture.unix (Fixture.GET "/path")
    (Unbuffered.NotFoundHandler_ServeHTTP
       (NewNotFoundHandler Fixture.broken_html) Fixture.w (Fixture.GET "/path"))
  = Some (nethttp.mkResponse true 404 None "<h1>")
  /\ nethttp.recorded Fixture.unix (Fixture.GET "/path")
       (NotFoundHandler_.ServeHTTP
          (NewNotFoundHandler Fixture.broken_html) Fixture.w
          (Fixture.GET "/path"))
     = Some (nethttp.mkResponse true 500 None
               ("can't evaluate field Missing" ++ nethttp.newline)%string).
Proof.
  pose proof (X2_unbuffered_streams_and_drops_error Fixture.unix
                Fixture.broken_html "Default error message" true Fixture.w
                (Fixture.GET "/path") "Test ServeError")
    as (_ & _ & _ & _ & Hfail).
  exact (Hfail "can't evaluate field Missing" eq_refl).
Defined.

(* ================================================================= *)
(** ** More about the file handler *)

Lemma slice_from_None (s : string) (i : Z) :
  slice_from s i = None <-> (i < 0 \/ len s < i).
Proof.
  unfold slice_from.
  destruct (i <? 0) eqn:Hneg; cbn [orb].
  - apply Z.ltb_lt in Hneg. split; [now left | reflexivity].
  - apply Z.ltb_ge in Hneg. destruct (len s <? i) eqn:Hlong.
    + apply Z.ltb_lt in Hlong. split; [now right | reflexivity].
    + apply Z.ltb_ge in Hlong. split; [discriminate | lia].
Qed.

Lemma ServeHTTP_unresolved sys h w r :
  resolved sys h r = None ->
  FileHandler_.ServeHTTP sys h w r = ([], Panicked).
Proof.
  unfold resolved, FileHandler_.ServeHTTP.
  destruct (slice_from (URL_Path r) (len (urlPath h) - 1)); [| reflexivity].
  cbv zeta. rewrite !bind_emit. discriminate.
Qed.

Lemma resolved_None_iff sys h r :
  resolved sys h r = None
  <-> (urlPath h = ""
       \/ (S (String.length (URL_Path r)) < String.length (urlPath h))%nat).
Proof.
  assert (Hrange :
            slice_from (URL_Path r) (len (urlPath h) - 1) = None
            <-> (urlPath h = ""
                 \/ (S (String.length (URL_Path r))
                     < String.length (urlPath h))%nat)).
  { rewrite slice_from_None. unfold len.
    destruct (urlPath h) as [|c u]; cbn [String.length].
    - split; [now left | intros _; left; lia].
    - split.
      + intros [Hneg | Hlong]; [lia | right; lia].
      + intros [Hempty | Hlong]; [discriminate | right; lia]. }
  rewrite <- Hrange. unfold resolved, FileHandler_.ServeHTTP.
  destruct (slice_from (URL_Path r) (len (urlPath h) - 1));
    cbv zeta; rewrite ?bind_emit; cbn [trace fst panic];
    split; try discriminate; reflexivity.
Qed.

(** X3.  The file handler panics exactly when its url path is empty or
    the request path is more than one byte shorter than the url path (the
    slice [r.URL.Path[len(h.urlPath)-1:]] is out of range), or when
    [os.Stat] fails and the not-found handler it then calls panics.  In the
    first case it panics before it has looked at the file system or
    touched the response, and an empty log with a panic is that case; in
    every other case it goes on to [os.Stat]. *)
Theorem X3_panics_exactly_out_of_range :
  forall (sys : Platform) (h : FileHandler) (w : ResponseWriter) (r : Request),
    (result (FileHandler_.ServeHTTP sys h w r) = Panicked
     <-> ((urlPath h = ""
           \/ (S (String.length (URL_Path r))
               < String.length (urlPath h))%nat)
          \/ exists (target : string) (err : os.PathError),
               resolved sys h r = Some target
               /\ Stat sys target = inr err
               /\ result (Handler_ServeHTTP (notFoundHandler h) w r)
                  = Panicked))
    /\ (FileHandler_.ServeHTTP sys h w r = ([], Panicked)
        <-> (urlPath h = ""
             \/ (S (String.length (URL_Path r))
                 < String.length (urlPath h))%nat))
    /\ (resolved sys h r = None
        <-> (urlPath h = ""
             \/ (S (String.length (URL_Path r))
                 < String.length (urlPath h))%nat)).
Proof.
  intros sys h w r.
  pose proof (resolved_None_iff sys h r) as Hnone.
  split; [| split; [| exact Hnone]].
  - destruct (resolved sys h r) as [target|] eqn:Htarget.
    + rewrite (ServeHTTP_resolved sys h w r target Htarget).
      cbn [result snd]. unfold after_stat.
      destruct (Stat sys target) as [finfo | err] eqn:Hstat.
      * split.
        -- destruct (os.IsDir (os.Mode finfo));
             [| destruct (os.IsRegular (os.Mode finfo))]; discriminate.
        -- intros [Hrange | (target' & err & Hsome & Hfail & _)].
           ++ apply Hnone in Hrange. discriminate Hrange.
           ++ injection Hsome as <-. congruence.
      * split.
        -- intro Hpanic. right. exists target, err. now repeat split.
        -- intros [Hrange | (target' & err' & _ & _ & Hpanic)];
             [apply Hnone in Hrange; discriminate Hrange | exact Hpanic].
    + rewrite (ServeHTTP_unresolved sys h w r Htarget). cbn [result snd].
      split; [intros _; left; now apply Hnone | reflexivity].
  - rewrite <- Hnone. split.
    + intro Hrun. destruct w. unfold resolved. now rewrite Hrun.
    + apply ServeHTTP_unresolved.
Qed.

(** X3 at a not-found handler that panics: the file handler panics after
    [os.Stat] on a missing file, with the slice in range. *)
Lemma X3_panics_exactly_out_of_range_witness :
  FileHandler_.ServeHTTP Fixture.unix
    (NewFileHandler "/test/" "./test"
       (mkHandler (fun _ _ => ([], Panicked))))
    Fixture.w (Fixture.GET "/test/nofile")
  = ([OsStat "./test/nofile"], Panicked)
  /\ result (FileHandler_.ServeHTTP Fixture.unix Fixture.fh Fixture.w
               (Fixture.GET "/te")) = Panicked.
Proof.
  split; [reflexivity |].
  apply (X3_panics_exactly_out_of_range Fixture.unix Fixture.fh Fixture.w
           (Fixture.GET "/te")).
  left. right. simpl. lia.
Defined.

(** X4.  The file handler never compares the request path with its url
    path: only the length of the url path is used.  Whenever the slice is
    in range, the target is the directory followed by the converted
    request path without its first [len(urlPath) - 1] bytes (and by the
    index page after a final slash), whether or not the request path starts
    with the url path; and two handlers on the same directory whose url
    paths have the same length handle every request alike. *)
Theorem X4_prefix_is_not_compared :
  forall (sys : Platform) (h : FileHandler) (r : Request),
    urlPath h <> "" ->
    (String.length (urlPath h) - 1 <= String.length (URL_Path r))%nat ->
    resolved sys h r =
      Some (directory h ++
            filepath.FromSlash (Separator sys)
              (drop (String.length (urlPath h) - 1) (URL_Path r)
               ++ (if strings.HasSuffix (URL_Path r) "/"
                   then "index.html" else "")))%string
    /\ (forall (h' : FileHandler) (w : ResponseWriter),
           String.length (urlPath h') = String.length (urlPath h) ->
           directory h' = directory h ->
           notFoundHandler h' = notFoundHandler h ->
           FileHandler_.ServeHTTP sys h' w r = FileHandler_.ServeHTTP sys h w r).
Proof.
  intros sys h r Hne Hlen. split.
  - unfold resolved, FileHandler_.ServeHTTP.
    assert (Hpos : (1 <= String.length (urlPath h))%nat)
      by (destruct (urlPath h); [congruence | simpl; lia]).
    replace (len (urlPath h) - 1)
      with (Z.of_nat (String.length (urlPath h) - 1)) by (unfold len; lia).
    rewrite slice_from_in_range by exact Hlen.
    cbv zeta. rewrite bind_emit. cbn [trace fst].
    destruct (strings.HasSuffix (URL_Path r) "/");
      [reflexivity | now rewrite append_nil_r].
  - intros h' w Hsame Hdir Hnf. unfold FileHandler_.ServeHTTP, len.
    now rewrite Hsame, Hdir, Hnf.
Qed.

(** X4 at the handler of the tests and a request outside its url path. *)
Lemma X4_prefix_is_not_compared_witness :
  resolved Fixture.unix Fixture.fh (Fixture.GET "/best/index.html")
  = Some "./test/index.html".
Proof.
  destruct (X4_prefix_is_not_compared Fixture.unix Fixture.fh
              (Fixture.GET "/best/index.html"))
    as [Htarget _]; [discriminate | simpl; lia | exact Htarget].
Defined.

(** X5.  The file handler never gives a directory to [http.ServeFile], so
    no directory listing can be produced through it: if the not-found
    handler it was given does not call [http.ServeFile] itself, then every
    such call made while handling a request is on the resolved target, and
    [os.Stat] has reported that target as a regular file. *)
Theorem X5_only_regular_files_are_served :
  forall (sys : Platform) (h : FileHandler) (w : ResponseWriter) (r : Request)
         (name : string),
    serves_no_file
      (transport (trace (Handler_ServeHTTP (notFoundHandler h) w r))) ->
    In (ServeFile name)
       (transport (trace (FileHandler_.ServeHTTP sys h w r))) ->
    resolved sys h r = Some name
    /\ exists finfo : os.FileInfo,
         Stat sys name = inl finfo
         /\ os.IsRegular (os.Mode finfo) = true
         /\ os.IsDir (os.Mode finfo) = false.
Proof.
  intros sys h w r name Hnf Hin.
  destruct (resolved sys h r) as [target|] eqn:Htarget.
  - rewrite (ServeHTTP_resolved sys h w r target Htarget) in Hin.
    cbn [trace fst transport] in Hin. unfold after_stat in Hin.
    destruct (Stat sys target) as [finfo | err] eqn:Hstat.
    + destruct (os.IsDir (os.Mode finfo)) eqn:Hdir.
      * cbn in Hin. destruct Hin as [Hin | []]. discriminate Hin.
      * destruct (os.IsRegular (os.Mode finfo)) eqn:Hreg.
        -- cbn in Hin. destruct Hin as [Hin | []]. injection Hin as <-.
           split; [reflexivity |]. exists finfo. now rewrite Hstat.
        -- cbn in Hin. destruct Hin.
    + exfalso. exact (Hnf name Hin).
  - rewrite (ServeHTTP_unresolved sys h w r Htarget) in Hin. destruct Hin.
Qed.

(** X5 at the test's request for [/test/], served from the index page. *)
Lemma X5_only_regular_files_are_served_witness :
  resolved Fixture.unix Fixture.fh (Fixture.GET "/test/")
  = Some "./test/index.html"
  /\ exists finfo : os.FileInfo,
       Stat Fixture.unix "./test/index.html" = inl finfo
       /\ os.IsRegular (os.Mode finfo) = true
       /\ os.IsDir (os.Mode finfo) = false.
Proof.
  apply (X5_only_regular_files_are_served Fixture.unix Fixture.fh Fixture.w
           (Fixture.GET "/test/") "./test/index.html").
  - intros name Hin. cbn in Hin.
    destruct Hin as [Hin | [Hin | []]]; discriminate Hin.
  - cbn. left. reflexivity.
Defined.




(* ================================================================= *)
(** ** Handlers loaded from template files *)




(** X8.  [LoadErrorHandler] stops the program in [log.Fatal] with the
    error of the parser when the template file does not parse, and returns
    no handler.  When the file parses, the handler it returns holds the
    parsed template, the default message and the display flag it was
    given; loaded with the flag off, what [ServeError] does is the same for
    every message it is called with, so a caller's message never reaches
    the client, while [AlwaysServeError] still renders the message it is
    given. *)
Theorem X8_loaded_error_handler :
  forall (sys : Platform) (ParseFiles : Parser)
         (templatePath defaultMsg : string) (display : bool)
         (w : ResponseWriter) (r : Request) (m : string),
    match ParseFiles templatePath with
    | inr err =>
        LoadErrorHandler ParseFiles templatePath defaultMsg display = Fatal err
    | inl t =>
        exists h : ErrorHandler,
          LoadErrorHandler ParseFiles templatePath defaultMsg display = Loaded h
          /\ template h = t
          /\ defaultMessage h = defaultMsg
          /\ displayErrors h = display
          /\ (display = false ->
              forall m' : string,
                ErrorHandler_.ServeError h w m' = ErrorHandler_.ServeError h w m)
          /\ (display = false ->
              render_error t (ErrorMessageData (mkErrorMessage defaultMsg))
              = None ->
              nethttp.recorded sys r (ErrorHandler_.ServeError h w m)
              = Some (nethttp.mkResponse true StatusInternalServerError None
                        (rendered t
                           (ErrorMessageData (mkErrorMessage defaultMsg)))))
          /\ (render_error t (ErrorMessageData (mkErrorMessage m)) = None ->
              nethttp.recorded sys r (ErrorHandler_.AlwaysServeError h w m)
              = Some (nethttp.mkResponse true StatusInternalServerError None
                        (rendered t (ErrorMessageData (mkErrorMessage m)))))
    end.
Proof.
  intros sys ParseFiles templatePath defaultMsg display w r m.
  unfold LoadErrorHandler.
  destruct (ParseFiles templatePath) as [t | err]; [| reflexivity].
  exists (NewErrorHandler t defaultMsg display).
  split; [reflexivity |]. split; [reflexivity |].
  split; [reflexivity |]. split; [reflexivity |].
  split; [| split].
  - intros -> m'. reflexivity.
  - intros -> Hok. rewrite ServeError_protocol.
    apply (render_then_commit_committed sys r t _ _ w Hok).
  - intro Hok. rewrite AlwaysServeError_protocol.
    apply (render_then_commit_committed sys r t _ _ w Hok).
Qed.

(** X8 at the error template of the tests, loaded with the flag off, and
    at a template file that does not exist. *)
Lemma X8_loaded_error_handler_witness :
  (exists h : ErrorHandler,
      LoadErrorHandler Inputs.parser "templates/error.html"
        "Default error message" false = Loaded h
      /\ nethttp.recorded Fixture.unix (Fixture.GET "/")
           (ErrorHandler_.ServeError h Fixture.w "Test ServeError")
         = Some (nethttp.mkResponse true 500 None
                   "Error: Default error message"))
  /\ LoadErrorHandler Inputs.parser "templates/missing.html"
       "Default error message" false
     = Fatal "open: no such file or directory".
Proof.
  split.
  - destruct (X8_loaded_error_handler Fixture.unix Inputs.parser
                "templates/error.html" "Default error message" false
                Fixture.w (Fixture.GET "/") "Test ServeError")
      as (h & Hload & _ & _ & _ & _ & Hpage & _).
    exists h. split; [exact Hload | apply Hpage; reflexivity].
  - exact (X8_loaded_error_handler Fixture.unix Inputs.parser
             "templates/missing.html" "Default error message" false
             Fixture.w (Fixture.GET "/") "Test ServeError").
Defined.

(* ================================================================= *)
(** ** The redirect to a directory *)

(** *** What [http.Redirect] does with the path *)










